(** * go-observability-demo: the order service and its telemetry set-up

    A shallow embedding of the Go sources
      - [internal/observability/tracing.go]  (module [Tracing]),
      - [internal/observability/logger.go]   (module [Logging]),
      - [internal/observability/metrics.go]  (the instruments of [Metrics]),
      - [internal/service/order_service.go]  (module [Service]),
    followed by the properties of the design document that can be
    stated over them.

    Conventions.  Go's [error] is [option string] ([None] is [nil]);
    [float64] is Rocq's primitive binary64 [float]; [int] and [int64] are
    [Z]; the process environment is a finite map from names to values. *)

From Stdlib Require Import ZArith Ascii String List Lia Bool Floats.
From stdpp Require Import base strings gmap list pretty.
Import ListNotations.
Local Open Scope string_scope.
Local Open Scope list_scope.
Local Open Scope Z_scope.

(** ** The process environment *)

Module Env.

(** [os.Getenv] returns the empty string for a variable that is not set. *)
Definition os_Getenv (env : gmap string string) (key : string) : string :=
  default "" (env !! key).

(** [getEnv] of tracing.go (and of main.go). *)
Definition getEnv (env : gmap string string) (key defaultValue : string) : string :=
  let value := os_Getenv env key in
  if negb (String.eqb value "") then value else defaultValue.

End Env.

(** ** tracing.go *)

Module Tracing.
Import Env.

(** [time.Duration] counts nanoseconds. *)
Definition time_Nanosecond : Z := 1.
Definition time_Millisecond : Z := 1000000.
Definition time_Second : Z := 1000000000.

(** The options [sdktrace.WithBatcher] receives. *)
Record BatchSpanProcessorOptions := {
  MaxExportBatchSize : Z;
  BatchTimeout : Z;
  MaxQueueSize : Z
}.

(** The sampler constructors the sources use. *)
Inductive Sampler :=
| TraceIDRatioBased (fraction : float)
| ParentBasedAlwaysSample.

Record TracerProvider := {
  tp_endpoint : string;
  tp_batcher : BatchSpanProcessorOptions;
  tp_sampler : Sampler
}.

(** The literal [0.1] of the source is the binary64 number nearest to
    one tenth. *)
Definition rate_production : float := 0x1.999999999999ap-4%float.
Definition rate_default : float := 1%float.

(** The sampling rate computed in [newTracerProvider]. *)
Definition samplingRate (env : gmap string string) : float :=
  if String.eqb (getEnv env "ENVIRONMENT" "development") "production"
  then rate_production
  else rate_default.

(** [newTracerProvider]; the exporter is created first and its failure
    is passed on. *)
Definition newTracerProvider (env : gmap string string)
    (exporter : option string) (endpoint : string) : string + TracerProvider :=
  match exporter with
  | Some err => inl err
  | None =>
      let samplingRate := samplingRate env in
      inr {| tp_endpoint := endpoint;
             tp_batcher := {| MaxExportBatchSize := 512;
                              BatchTimeout := 5 * time_Second;
                              MaxQueueSize := 2048 |};
             tp_sampler := TraceIDRatioBased samplingRate |}
  end.

(** [newResource]: the resource attributes. *)
Record Resource := {
  res_serviceName : string;
  res_serviceVersion : string;
  res_environment : string
}.

Definition newResource (env : gmap string string) (failure : option string)
    (serviceName : string) : string + Resource :=
  match failure with
  | Some err => inl err
  | None => inr {| res_serviceName := serviceName;
                   res_serviceVersion := "1.0.0";
                   res_environment := getEnv env "ENVIRONMENT" "development" |}
  end.

(** [newMeterProvider]: a periodic reader with a ten second interval. *)
Record MeterProvider := {
  mp_endpoint : string;
  mp_interval : Z
}.

Definition newMeterProvider (exporter : option string) (endpoint : string)
    : string + MeterProvider :=
  match exporter with
  | Some err => inl err
  | None => inr {| mp_endpoint := endpoint; mp_interval := 10 * time_Second |}
  end.

(** What the SDK constructors called during initialisation return
    ([None]: success). *)
Record InitResults := {
  resourceErr : option string;
  traceExporterErr : option string;
  metricExporterErr : option string
}.

(** What the two [Shutdown] methods of the SDK return when the shutdown
    function calls them. *)
Record ShutdownResults := {
  tracerShutdownErr : option string;
  meterShutdownErr : option string
}.

(** The calls the shutdown function makes on the providers, in order. *)
Inductive ProviderCall :=
| TracerProviderShutdown
| MeterProviderShutdown.

#[global] Instance ProviderCall_eq_dec : EqDecision ProviderCall.
Proof. solve_decision. Defined.

(** The closure [shutdown] of [InitObservability]: its error and the
    provider calls it made. *)
Definition shutdown (tracerProvider : TracerProvider) (meterProvider : MeterProvider)
    (r : ShutdownResults) : option string * list ProviderCall :=
  let calls := [TracerProviderShutdown] in
  match tracerShutdownErr r with
  | Some err => (Some ("failed to shutdown tracer provider: " +:+ err), calls)
  | None =>
      let calls := calls ++ [MeterProviderShutdown] in
      match meterShutdownErr r with
      | Some err => (Some ("failed to shutdown meter provider: " +:+ err), calls)
      | None => (None, calls)
      end
  end.

(** The global providers [otel.SetTracerProvider] and
    [otel.SetMeterProvider] install. *)
Record Globals := {
  g_tracerProvider : option TracerProvider;
  g_meterProvider : option MeterProvider
}.

Definition noGlobals : Globals :=
  {| g_tracerProvider := None; g_meterProvider := None |}.

Record Observability := {
  obs_tracerProvider : TracerProvider;
  obs_meterProvider : MeterProvider;
  obs_shutdown : ShutdownResults -> option string * list ProviderCall
}.

(** [InitObservability]: the globals after the call, and either the
    wrapped error or the providers with their shutdown function. *)
Definition InitObservability (env : gmap string string) (i : InitResults)
    (serviceName endpoint : string) (g : Globals) : (string + Observability) * Globals :=
  match newResource env (resourceErr i) serviceName with
  | inl err => (inl ("failed to create resource: " +:+ err), g)
  | inr res =>
      match newTracerProvider env (traceExporterErr i) endpoint with
      | inl err => (inl ("failed to create tracer provider: " +:+ err), g)
      | inr tracerProvider =>
          let g := {| g_tracerProvider := Some tracerProvider;
                      g_meterProvider := g_meterProvider g |} in
          match newMeterProvider (metricExporterErr i) endpoint with
          | inl err => (inl ("failed to create meter provider: " +:+ err), g)
          | inr meterProvider =>
              let g := {| g_tracerProvider := g_tracerProvider g;
                          g_meterProvider := Some meterProvider |} in
              (inr {| obs_tracerProvider := tracerProvider;
                      obs_meterProvider := meterProvider;
                      obs_shutdown := shutdown tracerProvider meterProvider |}, g)
          end
      end
  end.

End Tracing.

(** ** The OpenTelemetry trace API the sources call

    Span contexts, the validity and sampling tests on them, and the span a
    [context.Context] carries, as the API of [go.opentelemetry.io/otel/trace]
    documents them. *)

Module Trace.

(** A trace id is sixteen bytes and a span id eight, read here as
    big-endian numbers; the flags are one byte. *)
Record SpanContext := {
  traceID : Z;
  spanID : Z;
  traceFlags : Z
}.

Definition emptySpanContext : SpanContext :=
  {| traceID := 0; spanID := 0; traceFlags := 0 |}.

Definition FlagsSampled : Z := 1.

(** [SpanContext.IsValid]: both identifiers are non-zero. *)
Definition IsValid (sc : SpanContext) : bool :=
  negb (traceID sc =? 0) && negb (spanID sc =? 0).

(** [SpanContext.IsSampled]: the sampled bit of the flags. *)
Definition IsSampled (sc : SpanContext) : bool :=
  Z.land (traceFlags sc) FlagsSampled =? FlagsSampled.

(** A span handle: the object's identity (spans are heap objects), its
    span context, and whether it records. *)
Record Span := {
  span_obj : nat;
  span_sc : SpanContext;
  span_recording : bool
}.

(** The span returned for a context that carries none. *)
Definition noopSpan : Span :=
  {| span_obj := 0; span_sc := emptySpanContext; span_recording := false |}.

(** A [context.Context], as far as tracing reads it: the current span. *)
Definition Context := option Span.

Definition context_Background : Context := None.

Definition SpanFromContext (ctx : Context) : Span := default noopSpan ctx.

Definition ContextWithSpan (ctx : Context) (s : Span) : Context := Some s.

Definition hex_digit (d : Z) : string :=
  match d with
  | 0 => "0" | 1 => "1" | 2 => "2" | 3 => "3" | 4 => "4" | 5 => "5"
  | 6 => "6" | 7 => "7" | 8 => "8" | 9 => "9" | 10 => "a" | 11 => "b"
  | 12 => "c" | 13 => "d" | 14 => "e" | _ => "f"
  end.

(** [n] lowercase hexadecimal digits of [z], most significant first. *)
Fixpoint hex (n : nat) (z : Z) : string :=
  match n with
  | O => ""
  | S n' => hex n' (Z.shiftr z 4) +:+ hex_digit (Z.land z 15)
  end.

Definition TraceID_String (t : Z) : string := hex 32 t.
Definition SpanID_String (s : Z) : string := hex 16 s.

Inductive SpanKind := SpanKindInternal | SpanKindServer.

(** What a sampler is asked about. *)
Record SamplingParameters := {
  sp_ParentContext : Context;
  sp_TraceID : Z;
  sp_Name : string;
  sp_Kind : SpanKind
}.

End Trace.

(** ** The sampler *)

Module Sampler.
Import Tracing Trace.

(** The integer part of a non-negative binary64 number, [0] for the
    others. *)
Definition truncate (f : float) : Z :=
  match Prim2SF f with
  | S754_finite false m e =>
      if 0 <=? e then Z.shiftl (Z.pos m) e else Z.shiftr (Z.pos m) (- e)
  | _ => 0
  end.

(** Modelled from the spec: the bound of the trace-id-ratio sampler,
    which belongs to the OpenTelemetry SDK and is not among the sources.
    The uniform value of section 4.2 is a 63-bit number over 2^63, so
    being below the rate is being below the rate times 2^63. *)
Definition traceIDUpperBound (rate : float) : Z :=
  truncate (rate * 0x1p63)%float.

(** Modelled from the spec: the decision function of the trace-id-ratio
    sampler, which belongs to the OpenTelemetry SDK and is not among the
    sources.  Section 4.2: the trace id is mapped to a uniform value in
    [0,1) by a stable hash and accepted when that value is below the
    rate.  The hash is the low eight bytes of the id, halved, over 2^63;
    a rate of one or more accepts every trace. *)
Definition decide (rate : float) (trace_id : Z) : bool :=
  if (1 <=? rate)%float then true
  else Z.shiftr (trace_id mod 2 ^ 64) 1 <? traceIDUpperBound rate.

(** Modelled from the spec: [ShouldSample] of the SDK for the samplers
    of [Tracing.Sampler].  The ratio sampler decides on the trace id
    alone; the parent-based default of the SDK, which the tests use,
    follows a valid parent and samples every root. *)
Definition ShouldSample (s : Sampler) (p : SamplingParameters) : bool :=
  match s with
  | TraceIDRatioBased fraction => decide fraction (sp_TraceID p)
  | ParentBasedAlwaysSample =>
      let psc := span_sc (SpanFromContext (sp_ParentContext p)) in
      if IsValid psc then IsSampled psc else true
  end.

End Sampler.


(** ** The batch export pipeline *)

Module BatchPipeline.
Import Tracing.

Section Pipeline.
Context {Item : Type}.
Variable o : BatchSpanProcessorOptions.

(** Modelled from the spec: the mailbox and the worker of the batch
    span processor, which belong to the OpenTelemetry SDK and are not
    among the sources.  Section 4.4: a bounded mailbox fed by
    [enqueue], which drops the item and counts the drop when the
    mailbox is full; a single worker that accumulates items into the
    batch in progress and flushes (sends the batch, then clears it)
    when the batch reaches the maximum size or when the batch timeout
    has elapsed since the first item of the batch arrived, whichever
    comes first.  Section 4.7: shutdown stops the intake and forces a
    flush of whatever is buffered.  Times are the worker's clock in
    nanoseconds; every item of the batch keeps the time at which the
    worker received it, and the timer keeps the deadline it was armed
    with. *)
Record State := {
  mailbox : list Item;
  batch : list (Z * Item);
  timer : option Z;
  dropped : Z;
  sent : list (list Item);
  stopped : bool
}.

(** Modelled from the spec: the pipeline before any item. *)
Definition start : State :=
  {| mailbox := []; batch := []; timer := None; dropped := 0; sent := [];
     stopped := false |}.

(** Modelled from the spec: [enqueue] puts the item into the mailbox,
    or drops it and counts the drop when the mailbox is full. *)
Definition enqueue (it : Item) (st : State) : State :=
  if Z.of_nat (length (mailbox st)) <? MaxQueueSize o
  then {| mailbox := mailbox st ++ [it]; batch := batch st; timer := timer st;
          dropped := dropped st; sent := sent st; stopped := stopped st |}
  else {| mailbox := mailbox st; batch := batch st; timer := timer st;
          dropped := dropped st + 1; sent := sent st; stopped := stopped st |}.

(** Modelled from the spec: a flush sends the batch and clears it;
    the timer is disarmed. *)
Definition flush (st : State) : State :=
  {| mailbox := mailbox st; batch := []; timer := None;
     dropped := dropped st; sent := sent st ++ [map snd (batch st)];
     stopped := stopped st |}.

(** Modelled from the spec: the batch-timeout timer has run out. *)
Definition timer_due (now : Z) (st : State) : bool :=
  match timer st with
  | Some deadline => deadline <=? now
  | None => false
  end.

(** Modelled from the spec: the worker looks at its timer at time
    [now] and flushes when it has run out. *)
Definition on_timer (now : Z) (st : State) : State :=
  if timer_due now st then flush st else st.

(** Modelled from the spec: the worker takes the next item of the
    mailbox at time [now]; the first item of a batch arms the timer,
    and the item that fills the batch flushes it. *)
Definition on_item (now : Z) (st : State) : State :=
  match mailbox st with
  | [] => st
  | it :: rest =>
      let st' :=
        {| mailbox := rest;
           batch := batch st ++ [(now, it)];
           timer := match batch st with
                    | [] => Some (now + BatchTimeout o)
                    | _ :: _ => timer st
                    end;
           dropped := dropped st;
           sent := sent st;
           stopped := stopped st |} in
      if MaxExportBatchSize o <=? Z.of_nat (length (batch st'))
      then flush st' else st'
  end.

(** Modelled from the spec: the worker takes [n] items of the mailbox
    one after the other at time [now]. *)
Fixpoint drain (n : nat) (now : Z) (st : State) : State :=
  match n with
  | O => st
  | S n' => drain n' now (on_item now st)
  end.

(** Modelled from the spec: [shutdown] of section 4.7.  Whatever is
    buffered is flushed at once: the worker takes what is left in the
    mailbox, flushing every batch that fills, and then flushes the batch
    in progress if it holds anything; after that the pipeline is
    stopped. *)
Definition shutdown (now : Z) (st : State) : State :=
  let st1 := drain (length (mailbox st)) now st in
  let st2 := match batch st1 with
             | [] => st1
             | _ :: _ => flush st1
             end in
  {| mailbox := mailbox st2; batch := batch st2; timer := timer st2;
     dropped := dropped st2; sent := sent st2; stopped := true |}.

(** Modelled from the spec: what happens to the pipeline, a producer
    enqueueing an item, the worker waking at a time for its timer or
    for the next item, or the shutdown of the pipeline at a time. *)
Inductive Event :=
| Enqueue (it : Item)
| Timer (now : Z)
| Receive (now : Z)
| Shutdown (now : Z).

(** Modelled from the spec: one step; a worker that wakes for an item
    serves the timer first, so that whichever of the two conditions
    comes first flushes; a stopped pipeline accepts nothing and does
    nothing. *)
Definition step (st : State) (ev : Event) : State :=
  if stopped st then st
  else match ev with
       | Enqueue it => enqueue it st
       | Timer now => on_timer now st
       | Receive now => on_item now (on_timer now st)
       | Shutdown now => shutdown now st
       end.

(** Modelled from the spec: the pipeline after a history of events,
    oldest first. *)
Definition run (evs : list Event) : State := fold_left step evs start.

(** Modelled from the spec: what a history of events means for the
    mailbox alone, without batches and timers.  [pending] are the
    items enqueued and not yet taken, oldest first; [taken] are the
    items the worker has taken so far, each with the time at which it
    took it; an item offered to a full mailbox or after the shutdown is
    in neither. *)
Record Queue := {
  pending : list Item;
  taken : list (Z * Item);
  closed : bool
}.

(** Modelled from the spec: what one event does to the queue; a
    shutdown hands everything pending to the worker at its time. *)
Definition queue_step (q : Queue) (ev : Event) : Queue :=
  if closed q then q
  else match ev with
       | Enqueue it =>
           if Z.of_nat (length (pending q)) <? MaxQueueSize o
           then {| pending := pending q ++ [it]; taken := taken q; closed := false |}
           else q
       | Timer _ => q
       | Receive now =>
           match pending q with
           | [] => q
           | it :: rest =>
               {| pending := rest; taken := taken q ++ [(now, it)]; closed := false |}
           end
       | Shutdown now =>
           {| pending := [];
              taken := taken q ++ map (fun it => (now, it)) (pending q);
              closed := true |}
       end.

(** Modelled from the spec: the queue after a history of events. *)
Definition queue_of (evs : list Event) : Queue :=
  fold_left queue_step evs {| pending := []; taken := []; closed := false |}.

(** The step [ev] flushes in state [st]. *)
Definition flushes (st : State) (ev : Event) : Prop :=
  sent (step st ev) <> sent st.

(** The batch timeout has elapsed at [ev] since the first item of the
    batch in progress arrived. *)
Definition timeout_elapsed (st : State) (ev : Event) : Prop :=
  exists now t0 it rest,
    (ev = Timer now \/ ev = Receive now) /\
    batch st = (t0, it) :: rest /\
    t0 + BatchTimeout o <= now.

(** The item received at [ev] brings the batch in progress to the
    maximum size. *)
Definition size_reached (st : State) (ev : Event) : Prop :=
  exists now,
    ev = Receive now /\
    mailbox st <> [] /\
    Z.of_nat (length (batch st)) + 1 = MaxExportBatchSize o.

(** The shutdown at [ev] finds something buffered. *)
Definition shutdown_forced (st : State) (ev : Event) : Prop :=
  exists now,
    ev = Shutdown now /\ (batch st <> [] \/ mailbox st <> []).

(** What the worker maintains between steps. *)
Definition invariant (st : State) : Prop :=
  timer st = match batch st with
             | [] => None
             | (t0, _) :: _ => Some (t0 + BatchTimeout o)
             end /\
  Z.of_nat (length (batch st)) < MaxExportBatchSize o /\
  Z.of_nat (length (mailbox st)) <= MaxQueueSize o /\
  Forall (fun b => 1 <= Z.of_nat (length b) <= MaxExportBatchSize o) (sent st) /\
  (stopped st = true -> batch st = [] /\ mailbox st = []).

(** The state holds what the queue says: the mailbox is what is
    pending, and the items taken are those sent, in order, followed by
    the batch in progress with its arrival times. *)
Definition holds (st : State) (q : Queue) : Prop :=
  mailbox st = pending q /\
  stopped st = closed q /\
  exists before,
    taken q = before ++ batch st /\ map snd before = concat (sent st).

End Pipeline.

End BatchPipeline.

(** ** logger.go *)

Module Logging.
Import Env Trace.

(** The levels of [log/slog]. *)
Definition LevelDebug : Z := -4.
Definition LevelInfo : Z := 0.
Definition LevelWarn : Z := 4.
Definition LevelError : Z := 8.

(** The handler options: the minimum level and the source flag. *)
Record Logger := {
  lg_Level : Z;
  lg_AddSource : bool
}.

(** [NewLogger]. *)
Definition NewLogger (env : gmap string string) : Logger :=
  let level :=
    if String.eqb (os_Getenv env "LOG_LEVEL") "debug" then LevelDebug else LevelInfo in
  {| lg_Level := level; lg_AddSource := true |}.

(** A record is handled when its level is at least the minimum level. *)
Definition Enabled (l : Logger) (level : Z) : bool := lg_Level l <=? level.

Inductive Value :=
| VString (s : string)
| VInt (i : Z)
| VFloat (f : float).

Definition Attr : Type := string * Value.

Definition slog_String (k v : string) : Attr := (k, VString v).
Definition slog_Int (k : string) (v : Z) : Attr := (k, VInt v).
Definition slog_Int64 (k : string) (v : Z) : Attr := (k, VInt v).
Definition slog_Float64 (k : string) (v : float) : Attr := (k, VFloat v).

Record LogRecord := {
  rec_level : Z;
  rec_msg : string;
  rec_args : list Attr
}.

(** [logger.Log]: the record is written to the sink when the level is
    enabled. *)
Definition Logger_Log (logger : Logger) (ctx : Context) (level : Z) (msg : string)
    (args : list Attr) (sink : list LogRecord) : list LogRecord :=
  if Enabled logger level
  then sink ++ [{| rec_level := level; rec_msg := msg; rec_args := args |}]
  else sink.

(** [LogWithTrace]. *)
Definition LogWithTrace (ctx : Context) (logger : Logger) (level : Z) (msg : string)
    (args : list Attr) (sink : list LogRecord) : list LogRecord :=
  let span := SpanFromContext ctx in
  let args :=
    if IsValid (span_sc span)
    then args ++ [slog_String "trace_id" (TraceID_String (traceID (span_sc span)));
                  slog_String "span_id" (SpanID_String (spanID (span_sc span)))]
    else args in
  Logger_Log logger ctx level msg args sink.

Definition InfoWithTrace ctx logger msg args :=
  LogWithTrace ctx logger LevelInfo msg args.
Definition ErrorWithTrace ctx logger msg args :=
  LogWithTrace ctx logger LevelError msg args.
Definition WarnWithTrace ctx logger msg args :=
  LogWithTrace ctx logger LevelWarn msg args.
Definition DebugWithTrace ctx logger msg args :=
  LogWithTrace ctx logger LevelDebug msg args.

(** The keys of the fields of a record. *)
Definition keys (args : list Attr) : list string := map fst args.

End Logging.

(** ** metrics.go *)

Module Metrics.

Inductive InstrumentKind := Int64Counter | Float64Counter | Float64Histogram.

Record Instrument := {
  inst_name : string;
  inst_kind : InstrumentKind;
  inst_description : string;
  inst_unit : string
}.

Record Metrics := {
  OrderCounter : Instrument;
  OrderDuration : Instrument;
  PaymentAmount : Instrument;
  InventoryRequests : Instrument;
  ErrorCounter : Instrument
}.

(** [NewMetrics], when every instrument is created. *)
Definition NewMetrics : Metrics :=
  {| OrderCounter :=
       {| inst_name := "orders.created"; inst_kind := Int64Counter;
          inst_description := "Total number of orders created";
          inst_unit := "{order}" |};
     OrderDuration :=
       {| inst_name := "orders.duration"; inst_kind := Float64Histogram;
          inst_description := "Order processing duration";
          inst_unit := "ms" |};
     PaymentAmount :=
       {| inst_name := "payments.total_amount"; inst_kind := Float64Counter;
          inst_description := "Total payment amount processed";
          inst_unit := "USD" |};
     InventoryRequests :=
       {| inst_name := "inventory.requests"; inst_kind := Int64Counter;
          inst_description := "Number of inventory check requests";
          inst_unit := "{request}" |};
     ErrorCounter :=
       {| inst_name := "errors.total"; inst_kind := Int64Counter;
          inst_description := "Total number of errors";
          inst_unit := "{error}" |} |}.

End Metrics.

(** ** order_service.go *)

(** What the service takes from its surroundings: the random source of
    [math/rand] and the clock of [time], and the identifier generator of
    the tracer provider (which has a random source of its own). *)
Class Runtime (Rt : Type) := {
  rand_Intn : Z -> Rt -> Z * Rt;
  rand_Float64 : Rt -> float * Rt;
  time_Now : Rt -> Z * Rt;
  time_Sleep : Z -> Rt -> Rt
}.

Class IDGenerator (G : Type) := {
  NewIDs : G -> (Z * Z) * G;
  NewSpanID : Z -> G -> Z * G
}.

Module Service.
Import Env Tracing Trace Logging Metrics.

Inductive Code := Unset | Error | Ok.

(** The calls made on spans. *)
Inductive SpanOp :=
| OpStart (name : string) (kind : SpanKind)
| OpSetAttributes (kv : list Attr)
| OpAddEvent (name : string) (kv : list Attr)
| OpRecordError (err : string)
| OpSetStatus (code : Code) (description : string)
| OpEnd.

(** One recorded measurement of an instrument. *)
Record Measurement := {
  m_instrument : Instrument;
  m_value : Value;
  m_attrs : list Attr
}.

Record CreateOrderRequest := {
  UserID : string;
  ProductID : string;
  Quantity : Z;
  Amount : float
}.

Record CreateOrderResponse := {
  Status : string;
  OrderID : string;
  TraceID : string
}.

(** What is written to the [http.ResponseWriter]. *)
Inductive BodyPart :=
| Text (s : string)
| Json (r : CreateOrderResponse).

Record ResponseRecorder := mkRecorder {
  resp_Code : Z;
  resp_wroteHeader : bool;
  resp_Header : list (string * string);
  resp_Body : list BodyPart
}.

Definition NewRecorder : ResponseRecorder :=
  {| resp_Code := 200; resp_wroteHeader := false; resp_Header := []; resp_Body := [] |}.

Definition StatusCreated : Z := 201.
Definition StatusBadRequest : Z := 400.
Definition StatusInternalServerError : Z := 500.

(** An incoming request: its context and what [json.Decode] makes of its
    body, an error or the decoded value. *)
Record Request := {
  req_Context : Context;
  req_Decoded : string + CreateOrderRequest
}.

Record Tracer := {
  tracer_name : string;
  tracer_sampler : Sampler
}.

(** [otel.Tracer] on the installed provider. *)
Definition otel_Tracer (tp : TracerProvider) (name : string) : Tracer :=
  {| tracer_name := name; tracer_sampler := tp_sampler tp |}.

Record OrderService := {
  tracer : Tracer;
  logger : Logger;
  metrics : Metrics.Metrics
}.

Definition NewOrderService (tp : TracerProvider) (logger : Logger)
    (metrics : Metrics.Metrics) : OrderService :=
  {| tracer := otel_Tracer tp "order-service"; logger := logger; metrics := metrics |}.

(** [validateRequest]. *)
Definition validateRequest (req : CreateOrderRequest) : option string :=
  if String.eqb (UserID req) "" then Some "user_id is required"
  else if String.eqb (ProductID req) "" then Some "product_id is required"
  else if Quantity req <=? 0 then Some "quantity must be positive"
  else if (Amount req <=? 0)%float then Some "amount must be positive"
  else None.

(** [float64(d)] for an [int64]. *)
Definition float64_of_int64 (d : Z) : float :=
  SF2Prim (binary_normalize 53 1024 d 0 false).

(** [time.Duration.Milliseconds]. *)
Definition Milliseconds (d : Z) : Z := Z.quot d time_Millisecond.

Section World.
Context {Rt G : Type} `{!Runtime Rt} `{!IDGenerator G}.

(** The state an execution runs in: the surroundings, the next span
    object, and the four sinks (span calls, log records, measurements,
    the response), with the service methods entered so far. *)
Record World := mkWorld {
  w_rt : Rt;
  w_idg : G;
  w_nextSpan : nat;
  w_spans : list (Span * SpanOp);
  w_logs : list LogRecord;
  w_metrics : list Measurement;
  w_resp : ResponseRecorder;
  w_calls : list string
}.

Definition init (rt : Rt) (g : G) : World :=
  mkWorld rt g 1 [] [] [] NewRecorder [].

Definition M (A : Type) : Type := World -> A * World.

#[global] Instance M_ret : MRet M := fun A a w => (a, w).
#[global] Instance M_bind : MBind M :=
  fun A B f m w => let '(a, w') := m w in f a w'.

(** Entering a method of the service. *)
Definition enter (fn : string) : M unit :=
  fun '(mkWorld rt g n sp lg ms rs cs) =>
    (tt, mkWorld rt g n sp lg ms rs (cs ++ [fn])).

Definition Now : M Z :=
  fun '(mkWorld rt g n sp lg ms rs cs) =>
    let '(t, rt) := time_Now rt in (t, mkWorld rt g n sp lg ms rs cs).

Definition Sleep (d : Z) : M unit :=
  fun '(mkWorld rt g n sp lg ms rs cs) =>
    (tt, mkWorld (time_Sleep d rt) g n sp lg ms rs cs).

Definition Intn (bound : Z) : M Z :=
  fun '(mkWorld rt g n sp lg ms rs cs) =>
    let '(x, rt) := rand_Intn bound rt in (x, mkWorld rt g n sp lg ms rs cs).

Definition Float64 : M float :=
  fun '(mkWorld rt g n sp lg ms rs cs) =>
    let '(x, rt) := rand_Float64 rt in (x, mkWorld rt g n sp lg ms rs cs).

(** A call on a span. *)
Definition span_call (s : Span) (op : SpanOp) : M unit :=
  fun '(mkWorld rt g n sp lg ms rs cs) =>
    (tt, mkWorld rt g n (sp ++ [(s, op)]) lg ms rs cs).

(** The identifiers of a new span: the trace id of a valid parent is
    kept, a root gets a fresh one. *)
Definition new_ids (psc : SpanContext) (g : G) : (Z * Z) * G :=
  if IsValid psc
  then let '(sid, g) := NewSpanID (traceID psc) g in ((traceID psc, sid), g)
  else NewIDs g.

(** [tracer.Start]: the identifiers are drawn, the sampler decides,
    and the new span is put into the context. *)
Definition tracer_Start (t : Tracer) (ctx : Context) (name : string)
    (kind : SpanKind) : M (Context * Span) :=
  fun '(mkWorld rt g n sp lg ms rs cs) =>
    let psc := span_sc (SpanFromContext ctx) in
    let '((tid, sid), g) := new_ids psc g in
    let sampled :=
      Sampler.ShouldSample (tracer_sampler t)
        {| sp_ParentContext := ctx; sp_TraceID := tid; sp_Name := name;
           sp_Kind := kind |} in
    let flags :=
      if sampled then Z.lor (traceFlags psc) FlagsSampled
      else Z.land (traceFlags psc) (Z.lnot FlagsSampled) in
    let span :=
      {| span_obj := n;
         span_sc := {| traceID := tid; spanID := sid; traceFlags := flags |};
         span_recording := sampled |} in
    ((ContextWithSpan ctx span, span),
     mkWorld rt g (S n) (sp ++ [(span, OpStart name kind)]) lg ms rs cs).

Definition span_SetAttributes s kv := span_call s (OpSetAttributes kv).
Definition span_AddEvent s name kv := span_call s (OpAddEvent name kv).
Definition span_RecordError s err := span_call s (OpRecordError err).
Definition span_SetStatus s code description :=
  span_call s (OpSetStatus code description).
Definition span_End s := span_call s OpEnd.

(** The correlator of logger.go, writing to the log sink. *)
Definition log (f : list LogRecord -> list LogRecord) : M unit :=
  fun '(mkWorld rt g n sp lg ms rs cs) =>
    (tt, mkWorld rt g n sp (f lg) ms rs cs).

(** [Add] and [Record] of an instrument: the measurement is the value
    with its attributes; the context does not enter it. *)
Definition instrument_Add (i : Instrument) (ctx : Context) (v : Value)
    (attrs : list Attr) : M unit :=
  fun '(mkWorld rt g n sp lg ms rs cs) =>
    (tt, mkWorld rt g n sp lg
           (ms ++ [{| m_instrument := i; m_value := v; m_attrs := attrs |}])
           rs cs).

Definition respond (f : ResponseRecorder -> ResponseRecorder) : M unit :=
  fun '(mkWorld rt g n sp lg ms rs cs) =>
    (tt, mkWorld rt g n sp lg ms (f rs) cs).

(** [w.WriteHeader]: the first status written stays. *)
Definition WriteHeader (code : Z) : M unit :=
  respond (fun '(mkRecorder c wrote h b) =>
             if wrote then mkRecorder c wrote h b else mkRecorder code true h b).

Definition Header_Set (k v : string) : M unit :=
  respond (fun '(mkRecorder c wrote h b) => mkRecorder c wrote (h ++ [(k, v)]) b).

(** Writing the body writes the status 200 first if none was written. *)
Definition Write (part : BodyPart) : M unit :=
  respond (fun '(mkRecorder c wrote h b) => mkRecorder c true h (b ++ [part])).

(** [http.Error]: the two headers, the status, and the message on a
    line. *)
Definition http_Error (msg : string) (code : Z) : M unit :=
  Header_Set "Content-Type" "text/plain; charset=utf-8";;
  Header_Set "X-Content-Type-Options" "nosniff";;
  WriteHeader code;;
  Write (Text (msg +:+ String (ascii_of_nat 10) "")).

Definition attribute_String (k v : string) : Attr := (k, VString v).
Definition attribute_Int (k : string) (v : Z) : Attr := (k, VInt v).
Definition attribute_Int64 (k : string) (v : Z) : Attr := (k, VInt v).
Definition attribute_Float64 (k : string) (v : float) : Attr := (k, VFloat v).

Variable s : OrderService.

(** [checkInventory]. *)
Definition checkInventory (ctx : Context) (productID : string) (quantity : Z)
    : M (option string) :=
  enter "checkInventory";;
  '(ctx, span) ← tracer_Start (tracer s) ctx "CheckInventory" SpanKindInternal;
  r ← (span_SetAttributes span
         [attribute_String "product.id" productID;
          attribute_Int "requested.quantity" quantity];;
       log (DebugWithTrace ctx (logger s) "checking inventory"
              [slog_String "product_id" productID; slog_Int "quantity" quantity]);;
       n ← Intn 50;
       Sleep ((30 + n) * time_Millisecond);;
       instrument_Add (InventoryRequests (metrics s)) ctx (VInt 1) [];;
       x ← Float64;
       if (x <? 0x1.999999999999ap-4)%float then
         let err := "insufficient inventory" in
         span_RecordError span err;;
         span_SetStatus span Error "insufficient inventory";;
         mret (Some err)
       else
         span_AddEvent span "inventory_available" [];;
         mret None);
  span_End span;;
  mret r.

(** [processPayment]. *)
Definition processPayment (ctx : Context) (userID : string) (amount : float)
    : M (option string) :=
  enter "processPayment";;
  '(ctx, span) ← tracer_Start (tracer s) ctx "ProcessPayment" SpanKindInternal;
  r ← (span_SetAttributes span
         [attribute_String "user.id" userID;
          attribute_Float64 "payment.amount" amount];;
       log (DebugWithTrace ctx (logger s) "processing payment"
              [slog_String "user_id" userID; slog_Float64 "amount" amount]);;
       n ← Intn 100;
       Sleep ((80 + n) * time_Millisecond);;
       span_AddEvent span "payment_gateway_called"
         [attribute_String "gateway" "stripe";
          attribute_String "payment.method" "credit_card"];;
       k ← Intn 10;
       (if k =? 0 then
          span_AddEvent span "payment_slow_path" [];;
          log (WarnWithTrace ctx (logger s) "payment processing slow" []);;
          Sleep (3 * time_Second)
        else mret tt);;
       x ← Float64;
       if (x <? 0x1.999999999999ap-5)%float then
         let err := "payment declined" in
         span_RecordError span err;;
         span_SetStatus span Error "payment declined";;
         mret (Some err)
       else
         span_AddEvent span "payment_completed" [];;
         span_SetStatus span Ok "payment successful";;
         mret None);
  span_End span;;
  mret r.

(** [reserveInventory]. *)
Definition reserveInventory (ctx : Context) (productID : string) (quantity : Z)
    : M (option string) :=
  enter "reserveInventory";;
  '(ctx, span) ← tracer_Start (tracer s) ctx "ReserveInventory" SpanKindInternal;
  r ← (span_SetAttributes span
         [attribute_String "product.id" productID;
          attribute_Int "quantity" quantity];;
       log (DebugWithTrace ctx (logger s) "reserving inventory"
              [slog_String "product_id" productID; slog_Int "quantity" quantity]);;
       start ← Now;
       n ← Intn 60;
       Sleep ((40 + n) * time_Millisecond);;
       now ← Now;
       let duration := now - start in
       span_SetAttributes span
         [attribute_Int64 "db.duration_ms" (Milliseconds duration);
          attribute_String "db.operation" "UPDATE";
          attribute_String "db.table" "inventory"];;
       span_AddEvent span "inventory_reserved" [];;
       mret None);
  span_End span;;
  mret r.

(** [processOrder]: the order id, or the empty string with an error. *)
Definition processOrder (ctx : Context) (req : CreateOrderRequest)
    : M (string * option string) :=
  enter "processOrder";;
  e1 ← checkInventory ctx (ProductID req) (Quantity req);
  match e1 with
  | Some err => mret ("", Some ("inventory check failed: " +:+ err))
  | None =>
      e2 ← processPayment ctx (UserID req) (Amount req);
      match e2 with
      | Some err => mret ("", Some ("payment failed: " +:+ err))
      | None =>
          e3 ← reserveInventory ctx (ProductID req) (Quantity req);
          match e3 with
          | Some err => mret ("", Some ("inventory reservation failed: " +:+ err))
          | None =>
              now ← Now;
              let orderID := "order-" +:+ pretty now in
              mret (orderID, None)
          end
      end
  end.

(** [CreateOrderHandler]. *)
Definition CreateOrderHandler (r : Request) : M unit :=
  enter "CreateOrderHandler";;
  let ctx := req_Context r in
  start ← Now;
  '(ctx, span) ← tracer_Start (tracer s) ctx "CreateOrder" SpanKindServer;
  (log (InfoWithTrace ctx (logger s) "order creation started" []);;
   match req_Decoded r with
   | inl err =>
       span_RecordError span err;;
       span_SetStatus span Error "invalid request body";;
       log (ErrorWithTrace ctx (logger s) "failed to parse request"
              [slog_String "error" err]);;
       http_Error "invalid request" StatusBadRequest;;
       instrument_Add (ErrorCounter (metrics s)) ctx (VInt 1)
         [attribute_String "error.type" "invalid_request"]
   | inr req =>
       match validateRequest req with
       | Some err =>
           span_RecordError span err;;
           span_SetStatus span Error "validation failed";;
           log (ErrorWithTrace ctx (logger s) "request validation failed"
                  [slog_String "error" err]);;
           http_Error err StatusBadRequest;;
           instrument_Add (ErrorCounter (metrics s)) ctx (VInt 1)
             [attribute_String "error.type" "validation_error"]
       | None =>
           span_SetAttributes span
             [attribute_String "user.id" (UserID req);
              attribute_String "product.id" (ProductID req);
              attribute_Int "order.quantity" (Quantity req);
              attribute_Float64 "order.amount" (Amount req)];;
           '(orderID, err) ← processOrder ctx req;
           match err with
           | Some err =>
               span_RecordError span err;;
               span_SetStatus span Error err;;
               log (ErrorWithTrace ctx (logger s) "order processing failed"
                      [slog_String "error" err;
                       slog_String "user_id" (UserID req)]);;
               http_Error err StatusInternalServerError;;
               instrument_Add (ErrorCounter (metrics s)) ctx (VInt 1)
                 [attribute_String "error.type" "processing_error"]
           | None =>
               now ← Now;
               let duration := Milliseconds (now - start) in
               instrument_Add (OrderDuration (metrics s)) ctx
                 (VFloat (float64_of_int64 duration))
                 [attribute_String "status" "success"];;
               instrument_Add (OrderCounter (metrics s)) ctx (VInt 1)
                 [attribute_String "status" "success"];;
               instrument_Add (PaymentAmount (metrics s)) ctx
                 (VFloat (Amount req)) [];;
               span_SetStatus span Ok "order created successfully";;
               log (InfoWithTrace ctx (logger s) "order created successfully"
                      [slog_String "order_id" orderID;
                       slog_Int64 "duration_ms" duration]);;
               Header_Set "Content-Type" "application/json";;
               WriteHeader StatusCreated;;
               Write (Json {| Status := "success";
                              OrderID := orderID;
                              TraceID := TraceID_String (traceID (span_sc span)) |})
           end
       end
   end);;
  span_End span.

End World.

End Service.

(** ** A scripted runtime for concrete runs

    Random draws are replayed from a list ([0] once it is used up): an
    integer draw is reduced modulo the bound, a float draw is the listed
    number of hundredths.  The clock advances by the sleeps.  Identifiers
    are handed out by counting. *)

Module Script.

Record Rt := {
  draws : list Z;
  clock : Z
}.

Definition next (rt : Rt) : Z * Rt :=
  match draws rt with
  | [] => (0, rt)
  | d :: ds => (d, {| draws := ds; clock := clock rt |})
  end.

#[global] Instance script_runtime : Runtime Rt := {|
  rand_Intn n rt := let '(d, rt') := next rt in (d mod n, rt');
  rand_Float64 rt :=
    let '(d, rt') := next rt in ((Service.float64_of_int64 d / 100)%float, rt');
  time_Now rt := (clock rt, rt);
  time_Sleep d rt := {| draws := draws rt; clock := clock rt + d |}
|}.

#[global] Instance counting_ids : IDGenerator Z := {|
  NewIDs g := ((g + 1, g + 2), g + 2);
  NewSpanID tid g := (g + 1, g + 1)
|}.

End Script.

(** * Properties *)

(** ** Sampling configuration *)

Module TracingProperties.
Import Env Tracing Trace Service.

Lemma getEnv_unset env key d : env !! key = None -> getEnv env key d = d.
Proof. intros H. unfold getEnv, os_Getenv. rewrite H. reflexivity. Qed.

Lemma getEnv_production env :
  String.eqb (getEnv env "ENVIRONMENT" "development") "production"
  = String.eqb (os_Getenv env "ENVIRONMENT") "production".
Proof.
  unfold getEnv.
  destruct (String.eqb_spec (os_Getenv env "ENVIRONMENT") "") as [-> | _];
    reflexivity.
Qed.

Lemma samplingRate_cases env :
  samplingRate env =
    if String.eqb (os_Getenv env "ENVIRONMENT") "production"
    then rate_production else rate_default.
Proof. unfold samplingRate. rewrite getEnv_production. reflexivity. Qed.

(** C1.  The tracer provider is built with a trace-id-ratio sampler whose
    rate depends on the value of ENVIRONMENT alone: one tenth (as a
    binary64 number) when it is "production", one for every other
    value and when it is unset; the tracer of the order service takes
    its sampler from that provider. *)
Theorem sampling_rate_selected_by_environment
    (env : gmap string string) (endpoint : string) :
  exists tp,
    newTracerProvider env None endpoint = inr tp /\
    tp_sampler tp =
      TraceIDRatioBased
        (if String.eqb (os_Getenv env "ENVIRONMENT") "production"
         then 0x1.999999999999ap-4 else 1)%float /\
    (env !! "ENVIRONMENT" = None -> tp_sampler tp = TraceIDRatioBased 1%float) /\
    forall lg m, tracer_sampler (tracer (NewOrderService tp lg m)) = tp_sampler tp.
Proof.
  eexists. split; [reflexivity|]. cbn [tp_sampler].
  rewrite samplingRate_cases. split; [reflexivity|]. split; [|reflexivity].
  intros H. unfold os_Getenv. rewrite H. reflexivity.
Qed.

Example rate_in_production :
  samplingRate {[ "ENVIRONMENT" := "production" ]} = rate_production.
Proof. reflexivity. Qed.

Example rate_in_development :
  samplingRate {[ "ENVIRONMENT" := "development" ]} = 1%float.
Proof. reflexivity. Qed.

Example rate_in_staging :
  samplingRate {[ "ENVIRONMENT" := "staging" ]} = 1%float.
Proof. reflexivity. Qed.

(** One tenth of the traces: the bound on the 63-bit hash. *)
Example production_bound :
  Sampler.traceIDUpperBound rate_production = 922337203685477632.
Proof. reflexivity. Qed.

End TracingProperties.

(** ** The sampler's decision *)

Module SamplerProperties.
Import Env Tracing Trace Sampler.

Lemma ratio_sampler_reads_trace_id rate p :
  ShouldSample (TraceIDRatioBased rate) p = decide rate (sp_TraceID p).
Proof. reflexivity. Qed.

(** Rate one keeps every trace, rate zero none. *)
Lemma decide_rate_one tid : decide 1 tid = true.
Proof. reflexivity. Qed.

Lemma decide_rate_zero tid : decide 0 tid = false.
Proof.
  unfold decide. cbn -[Z.shiftr Z.modulo Z.pow].
  change (traceIDUpperBound 0) with 0.
  apply Z.ltb_ge. apply Z.shiftr_nonneg. apply Z.mod_pos_bound. lia.
Qed.

Example production_keeps_low_hash : decide rate_production 100 = true.
Proof. reflexivity. Qed.

Example production_drops_high_hash : decide rate_production (2 ^ 64 - 1) = false.
Proof. reflexivity. Qed.

End SamplerProperties.

(** ** The span export pipeline *)

Module BatchProperties.
Import Tracing BatchPipeline.

Section Worker.
Context {Item : Type}.
Variable o : BatchSpanProcessorOptions.
Hypothesis size_positive : 0 < MaxExportBatchSize o.
Hypothesis queue_nonnegative : 0 <= MaxQueueSize o.

Let State := @State Item.
Let Event := @Event Item.
Let Queue := @Queue Item.

Lemma start_invariant : invariant o (@start Item).
Proof.
  unfold invariant. cbn.
  refine (conj _ (conj _ (conj _ (conj _ _)))); auto with zarith.
Qed.

Lemma start_holds :
  holds (@start Item) {| pending := []; taken := []; closed := false |}.
Proof.
  unfold holds. cbn. split; [reflexivity|]. split; [reflexivity|].
  exists []. split; reflexivity.
Qed.

Lemma flush_invariant (st : State) :
  1 <= Z.of_nat (length (batch st)) <= MaxExportBatchSize o ->
  Z.of_nat (length (mailbox st)) <= MaxQueueSize o ->
  Forall (fun b => 1 <= Z.of_nat (length b) <= MaxExportBatchSize o) (sent st) ->
  stopped st = false ->
  invariant o (flush st).
Proof.
  intros Hb Hm Hs Hrun. unfold invariant. cbn.
  refine (conj _ (conj _ (conj _ (conj _ _)))); auto with zarith.
  - apply Forall_app. split; [exact Hs|]. constructor; [|constructor].
    rewrite length_map. exact Hb.
  - intros Hst. congruence.
Qed.

Lemma nonempty_length {A} (l : list A) : l <> [] -> 1 <= Z.of_nat (length l).
Proof. destruct l; [contradiction|]. cbn [length]. lia. Qed.

Lemma flush_holds (st : State) (q : Queue) : holds st q -> holds (flush st) q.
Proof.
  intros (Hm & Hc & before & Htk & Hsent). unfold holds. cbn.
  split; [exact Hm|]. split; [exact Hc|].
  exists (before ++ batch st). split.
  - rewrite app_nil_r. exact Htk.
  - rewrite map_app, concat_app, Hsent. cbn. rewrite app_nil_r. reflexivity.
Qed.

Lemma enqueue_invariant it (st : State) :
  invariant o st -> stopped st = false -> invariant o (enqueue o it st).
Proof.
  intros (Ht & Hb & Hm & Hs & Hstop) Hrun. unfold enqueue.
  destruct (Z.ltb_spec (Z.of_nat (length (mailbox st))) (MaxQueueSize o));
    unfold invariant; cbn; rewrite ?length_app; cbn;
    refine (conj _ (conj _ (conj _ (conj _ _)))); auto; try lia; intros; congruence.
Qed.

Lemma enqueue_holds it (st : State) (q : Queue) :
  holds st q -> closed q = false ->
  holds (enqueue o it st) (queue_step o q (Enqueue it)).
Proof.
  intros (Hm & Hc & before & Htk & Hsent) Hopen.
  unfold enqueue, queue_step. rewrite Hopen, <- Hm.
  destruct (_ <? _); unfold holds; cbn;
    (split; [congruence|]; split; [congruence|]; eauto).
Qed.

Lemma on_timer_invariant now (st : State) :
  invariant o st -> stopped st = false -> invariant o (on_timer now st).
Proof.
  intros Hinv Hrun. unfold on_timer, timer_due.
  destruct (timer st) as [deadline|] eqn:Htimer; [|exact Hinv].
  destruct (deadline <=? now); [|exact Hinv].
  destruct Hinv as (Ht & Hb & Hm & Hs & _).
  apply flush_invariant; auto. split; [|lia].
  apply nonempty_length. intros Hnil. rewrite Hnil, Htimer in Ht. discriminate Ht.
Qed.

Lemma on_timer_holds now (st : State) (q : Queue) :
  holds st q -> holds (on_timer now st) q.
Proof.
  intros H. unfold on_timer. destruct (timer_due now st); [apply flush_holds|]; exact H.
Qed.

Lemma on_timer_stopped now (st : State) : stopped (on_timer now st) = stopped st.
Proof. unfold on_timer. destruct (timer_due now st); reflexivity. Qed.

Lemma on_item_invariant now (st : State) :
  invariant o st -> stopped st = false -> invariant o (on_item o now st).
Proof.
  intros (Ht & Hb & Hm & Hs & Hstop) Hrun. unfold on_item.
  destruct (mailbox st) as [|it rest] eqn:Hbox;
    [unfold invariant; rewrite Hbox; auto 10|].
  cbn [length] in Hm.
  match goal with |- context [if ?c then _ else _] => destruct c eqn:Hfull end.
  - apply flush_invariant; cbn; auto; [|lia].
    rewrite length_app. cbn. lia.
  - apply Z.leb_gt in Hfull. cbn in Hfull. unfold invariant. cbn.
    refine (conj _ (conj _ (conj _ (conj _ _)))); auto; try lia;
      [|intros; congruence].
    destruct (batch st) as [|[t0 first] more]; [reflexivity|exact Ht].
Qed.

Lemma on_item_holds now (st : State) (q : Queue) :
  holds st q -> closed q = false ->
  holds (on_item o now st) (queue_step o q (Receive now)).
Proof.
  intros (Hm & Hc & before & Htk & Hsent) Hopen.
  unfold on_item, queue_step. rewrite Hopen, <- Hm.
  destruct (mailbox st) as [|it rest] eqn:Hbox.
  { unfold holds. rewrite Hbox. eauto 10. }
  match goal with |- context [if ?c then _ else _] => destruct c end.
  - apply flush_holds. unfold holds. cbn.
    split; [reflexivity|]. split; [congruence|].
    exists before. split; [|exact Hsent]. rewrite Htk, app_assoc. reflexivity.
  - unfold holds. cbn.
    split; [reflexivity|]. split; [congruence|].
    exists before. split; [|exact Hsent]. rewrite Htk, app_assoc. reflexivity.
Qed.

Lemma on_item_stopped now (st : State) : stopped (on_item o now st) = stopped st.
Proof.
  unfold on_item. destruct (mailbox st); [reflexivity|].
  match goal with |- context [if ?c then _ else _] => destruct c end; reflexivity.
Qed.

Lemma on_item_dropped now (st : State) : dropped (on_item o now st) = dropped st.
Proof.
  unfold on_item. destruct (mailbox st); [reflexivity|].
  match goal with |- context [if ?c then _ else _] => destruct c end; reflexivity.
Qed.

(** Draining the mailbox is taking its items one after the other. *)
Lemma drain_ok now (items : list Item) : forall (st : State) (q : Queue),
  mailbox st = items -> stopped st = false -> invariant o st -> holds st q ->
  invariant o (drain o (length items) now st) /\
  stopped (drain o (length items) now st) = false /\
  dropped (drain o (length items) now st) = dropped st /\
  holds (drain o (length items) now st)
    {| pending := []; taken := taken q ++ map (fun it => (now, it)) items;
       closed := false |}.
Proof.
  induction items as [|it rest IH]; intros st q Hbox Hrun Hinv Hholds.
  - cbn. rewrite app_nil_r.
    split; [exact Hinv|]. split; [exact Hrun|]. split; [reflexivity|].
    destruct Hholds as (Hm & Hc & Hex). unfold holds. cbn.
    split; [exact Hbox|]. split; [exact Hrun|]. exact Hex.
  - cbn [length drain].
    assert (Hopen : closed q = false) by (destruct Hholds as (_ & <- & _); exact Hrun).
    pose proof (on_item_holds now st q Hholds Hopen) as Hholds'.
    assert (Hpend : pending q = it :: rest) by (destruct Hholds as (<- & _); exact Hbox).
    unfold queue_step in Hholds'. rewrite Hopen, Hpend in Hholds'.
    assert (Hbox' : mailbox (on_item o now st) = rest) by (apply Hholds').
    assert (Hrun' : stopped (on_item o now st) = false)
      by (rewrite on_item_stopped; exact Hrun).
    destruct (IH _ _ Hbox' Hrun' (on_item_invariant now st Hinv Hrun) Hholds')
      as (Hi & Hs & Hd & Hh).
    split; [exact Hi|]. split; [exact Hs|]. split.
    + rewrite Hd. apply on_item_dropped.
    + cbn [taken] in Hh. rewrite <- app_assoc in Hh. exact Hh.
Qed.

Lemma shutdown_invariant now (st : State) (q : Queue) :
  invariant o st -> stopped st = false -> holds st q ->
  invariant o (shutdown o now st) /\
  holds (shutdown o now st) (queue_step o q (Shutdown now)).
Proof.
  intros Hinv Hrun Hholds.
  assert (Hopen : closed q = false) by (destruct Hholds as (_ & <- & _); exact Hrun).
  assert (Hpend : pending q = mailbox st) by (symmetry; apply Hholds).
  destruct (drain_ok now (mailbox st) st q eq_refl Hrun Hinv Hholds)
    as (Hi & Hs & Hd & Hh).
  unfold shutdown, queue_step. rewrite Hopen, Hpend.
  set (st1 := drain o (length (mailbox st)) now st) in *.
  assert (Hbox1 : mailbox st1 = []) by (apply Hh).
  destruct (batch st1) as [|first more] eqn:Hbatch.
  - split.
    + destruct Hi as (Ht & Hb & Hm & Hsent & _). unfold invariant. cbn.
      rewrite Hbatch in *.
      refine (conj _ (conj _ (conj _ (conj _ _)))); auto.
    + destruct Hh as (_ & _ & before & Htk & Hsent). unfold holds. cbn.
      split; [exact Hbox1|]. split; [reflexivity|].
      exists before. cbn in Htk. rewrite Hbatch in *. auto.
  - assert (Hne : batch st1 <> []) by (rewrite Hbatch; discriminate).
    assert (Hflush : invariant o (flush st1)).
    { destruct Hi as (_ & Hb & Hm & Hsent & _).
      apply flush_invariant; auto. split; [apply nonempty_length, Hne|lia]. }
    destruct Hflush as (Ht & Hb & Hm & Hsent & _).
    pose proof (flush_holds st1 _ Hh) as (_ & _ & before & Htk & Hsent').
    split.
    + unfold invariant. cbn. cbn in Hb, Hm, Hsent.
      refine (conj _ (conj _ (conj _ (conj _ _)))); auto.
    + unfold holds. cbn. split; [exact Hbox1|]. split; [reflexivity|].
      exists before. cbn in Htk, Hsent'. auto.
Qed.

Lemma step_ok (st : State) (q : Queue) (ev : Event) :
  invariant o st -> holds st q ->
  invariant o (step o st ev) /\ holds (step o st ev) (queue_step o q ev).
Proof.
  intros Hinv Hholds. unfold step.
  destruct (stopped st) eqn:Hrun.
  { assert (Hclosed : closed q = true) by (destruct Hholds as (_ & <- & _); exact Hrun).
    unfold queue_step. rewrite Hclosed. auto. }
  assert (Hopen : closed q = false) by (destruct Hholds as (_ & <- & _); exact Hrun).
  destruct ev as [it|now|now|now].
  - split; [apply enqueue_invariant|apply enqueue_holds]; auto.
  - split; [apply on_timer_invariant; assumption|].
    unfold queue_step. rewrite Hopen. apply on_timer_holds, Hholds.
  - split.
    + apply on_item_invariant; [apply on_timer_invariant; assumption|].
      rewrite on_timer_stopped. exact Hrun.
    + apply on_item_holds; [apply on_timer_holds, Hholds|exact Hopen].
  - apply shutdown_invariant; auto.
Qed.

Lemma run_ok (evs : list Event) :
  invariant o (run o evs) /\ holds (run o evs) (queue_of o evs).
Proof.
  unfold run, queue_of. induction evs as [|ev evs IH] using rev_ind.
  - split; [apply start_invariant|apply start_holds].
  - rewrite !fold_left_app. cbn [fold_left]. apply step_ok; apply IH.
Qed.

Lemma run_snoc (evs : list Event) (ev : Event) :
  run o (evs ++ [ev]) = step o (run o evs) ev.
Proof. unfold run. rewrite fold_left_app. reflexivity. Qed.

Lemma sent_grows (l : list (list Item)) b : l ++ [b] <> l.
Proof.
  intros H. apply (f_equal (@length _)) in H. rewrite length_app in H.
  cbn in H. lia.
Qed.

(** Under the invariant the timer is due exactly when the timeout has
    elapsed since the first item of the batch arrived. *)
Lemma timer_due_iff now (st : State) :
  invariant o st ->
  timer_due now st = true <->
  exists t0 it rest, batch st = (t0, it) :: rest /\ t0 + BatchTimeout o <= now.
Proof.
  intros (Ht & _). unfold timer_due. rewrite Ht.
  destruct (batch st) as [|[t0 it] rest].
  - split; [discriminate|]. intros (? & ? & ? & [=] & _).
  - rewrite Z.leb_le. split.
    + intros H. eauto.
    + intros (? & ? & ? & [= <- _ _] & H). exact H.
Qed.

(** A shutdown sends everything that is buffered, and nothing else. *)
Lemma shutdown_sends_buffered now (st : State) (q : Queue) :
  invariant o st -> stopped st = false -> holds st q ->
  concat (sent (shutdown o now st))
  = concat (sent st) ++ map snd (batch st) ++ mailbox st.
Proof.
  intros Hinv Hrun Hholds.
  destruct (shutdown_invariant now st q Hinv Hrun Hholds) as (Hinv' & Hholds').
  assert (Hopen : closed q = false) by (destruct Hholds as (_ & <- & _); exact Hrun).
  destruct Hholds as (Hm & _ & before & Htk & Hsent).
  destruct Hholds' as (_ & _ & before' & Htk' & Hsent').
  destruct Hinv' as (_ & _ & _ & _ & Hstop).
  destruct (Hstop eq_refl) as (Hb' & _). rewrite Hb', app_nil_r in Htk'.
  unfold queue_step in Htk'. rewrite Hopen in Htk'. cbn in Htk'.
  rewrite <- Hsent', <- Htk', Htk, <- Hm, !map_app, Hsent, map_map. cbn.
  rewrite map_id, app_assoc. reflexivity.
Qed.

Lemma flush_iff (st : State) (q : Queue) (ev : Event) :
  invariant o st -> holds st q ->
  flushes o st ev <->
  stopped st = false /\
  (timeout_elapsed o st ev \/ size_reached o st ev \/ shutdown_forced st ev).
Proof.
  intros Hinv Hholds. pose proof Hinv as (Ht & Hb & Hm & _).
  unfold flushes, timeout_elapsed, size_reached, shutdown_forced, step.
  destruct (stopped st) eqn:Hrun.
  { split; [intros H; exfalso; apply H; reflexivity|intros [[=] _]]. }
  split.
  - intros Hflush. split; [reflexivity|].
    destruct ev as [it|now|now|now].
    + exfalso. apply Hflush. unfold enqueue. destruct (_ <? _); reflexivity.
    + left. unfold on_timer in Hflush.
      pose proof (timer_due_iff now st Hinv) as Hdue.
      destruct (timer_due now st); [|exfalso; apply Hflush; reflexivity].
      destruct (proj1 Hdue eq_refl) as (t0 & it & rest & Hbatch & Hle).
      exists now, t0, it, rest. auto.
    + unfold on_timer in Hflush.
      pose proof (timer_due_iff now st Hinv) as Hdue.
      destruct (timer_due now st).
      * left. destruct (proj1 Hdue eq_refl) as (t0 & it & rest & Hbatch & Hle).
        exists now, t0, it, rest. auto.
      * right. left. exists now. split; [reflexivity|].
        unfold on_item in Hflush.
        destruct (mailbox st) as [|it rest]; [exfalso; apply Hflush; reflexivity|].
        split; [discriminate|].
        cbn [batch] in Hflush. rewrite length_app in Hflush. cbn [length] in Hflush.
        destruct (Z.leb_spec (MaxExportBatchSize o)
                    (Z.of_nat (length (batch st) + 1))) as [Hfull|Hroom];
          [lia|exfalso; apply Hflush; reflexivity].
    + right. right. exists now. split; [reflexivity|].
      destruct (batch st) as [|b bs] eqn:Hbatch; [|left; discriminate].
      destruct (mailbox st) as [|m ms] eqn:Hbox; [|right; discriminate].
      exfalso. apply Hflush. unfold shutdown. rewrite Hbox. cbn. rewrite Hbatch.
      reflexivity.
  - intros [_ [Htime | [Hsize | Hforced]]].
    + destruct Htime as (now & t0 & it & rest & Hev & Hbatch & Hle).
      assert (Hdue : timer_due now st = true)
        by (apply (timer_due_iff now st Hinv); eauto).
      destruct Hev as [-> | ->]; unfold on_timer; rewrite Hdue.
      * apply sent_grows.
      * unfold on_item. cbn [mailbox flush].
        destruct (mailbox st) as [|it' rest']; [apply sent_grows|].
        cbn [batch sent app length].
        destruct (_ <=? _); cbn [sent flush]; [|apply sent_grows].
        intros H. apply (f_equal (@length _)) in H. rewrite !length_app in H.
        cbn in H. lia.
    + destruct Hsize as (now & -> & Hne & Hlen).
      unfold on_timer. destruct (timer_due now st) eqn:Hdue.
      * unfold on_item. cbn [mailbox flush].
        destruct (mailbox st) as [|it' rest']; [contradiction|].
        cbn [batch sent app length].
        destruct (_ <=? _); cbn [sent flush]; [|apply sent_grows].
        intros H. apply (f_equal (@length _)) in H. rewrite !length_app in H.
        cbn in H. lia.
      * unfold on_item. destruct (mailbox st) as [|it' rest']; [contradiction|].
        cbn [batch]. rewrite length_app. cbn [length].
        destruct (Z.leb_spec (MaxExportBatchSize o)
                    (Z.of_nat (length (batch st) + 1))) as [Hfull|Hroom]; [|lia].
        cbn. apply sent_grows.
    + destruct Hforced as (now & -> & Hbuf).
      intros Heq. apply (f_equal (@concat _)) in Heq.
      rewrite (shutdown_sends_buffered now st q Hinv Hrun Hholds) in Heq.
      apply (f_equal (@length _)) in Heq. rewrite !length_app, length_map in Heq.
      destruct Hbuf as [Hne | Hne];
        [destruct (batch st)|destruct (mailbox st)];
        try contradiction; cbn [length] in Heq; lia.
Qed.

End Worker.

(** The options of the provider, as [newTracerProvider] passes them. *)
Definition provider_options : BatchSpanProcessorOptions :=
  {| MaxExportBatchSize := 512; BatchTimeout := 5 * time_Second;
     MaxQueueSize := 2048 |}.

(** C3, as stated, fails: a shutdown flushes a batch of one span that
    arrived a second before, although the batch is not full and its
    timeout has not elapsed. *)
Lemma shutdown_flushes_before_size_and_timeout :
  let history := [Enqueue "a"; Receive (1 * time_Second)] in
  let ev := Shutdown (2 * time_Second) in
  let st := run provider_options history in
  sent st = [] /\
  batch st = [(1 * time_Second, "a")] /\
  sent (run provider_options (history ++ [ev])) = [["a"]] /\
  ~ timeout_elapsed provider_options st ev /\
  ~ size_reached provider_options st ev.
Proof.
  cbv zeta. split; [reflexivity|]. split; [reflexivity|]. split; [reflexivity|].
  split.
  - intros (now & t0 & it & rest & [[=] | [=]] & _).
  - intros (now & [=] & _).
Qed.

(** C3, amended.  The provider is built with a batcher whose queue holds
    2048 spans, whose batches hold 512 and whose timeout is five
    seconds.  With these options, after any history of events: the
    mailbox holds exactly the spans enqueued and not yet taken, and the
    spans taken by the worker are those sent, in order, followed by the
    batch in progress with their arrival times; the mailbox never holds
    more than 2048 spans, an enqueue is accepted exactly when it holds
    fewer and is dropped and counted otherwise, and 2048 enqueues in a
    row are all held; every batch sent has between 1 and 512 spans; and
    a step flushes exactly when the pipeline is not stopped and five
    seconds have elapsed since the first span of the batch in progress
    arrived, or the span received is the 512th of that batch, or a
    shutdown finds something buffered. *)
Theorem span_pipeline_flushes_on_size_timeout_or_shutdown
    (env : gmap string string) (endpoint : string) :
  exists tp,
    newTracerProvider env None endpoint = inr tp /\
    let o := tp_batcher tp in
    MaxQueueSize o = 2048 /\
    MaxExportBatchSize o = 512 /\
    BatchTimeout o = 5 * time_Second /\
    forall (Item : Type) (history : list (@Event Item)) (ev : @Event Item),
      let st := run o history in
      let st' := run o (history ++ [ev]) in
      let q := queue_of o history in
      (mailbox st = pending q /\
       exists before,
         taken q = before ++ batch st /\ map snd before = concat (sent st)) /\
      Z.of_nat (length (mailbox st)) <= 2048 /\
      (forall it, ev = Enqueue it -> stopped st = false ->
         if Z.of_nat (length (mailbox st)) <? 2048
         then mailbox st' = mailbox st ++ [it] /\ dropped st' = dropped st
         else mailbox st' = mailbox st /\ dropped st' = dropped st + 1) /\
      (forall it : Item,
         mailbox (run o (replicate 2048 (Enqueue it))) = replicate 2048 it /\
         dropped (run o (replicate 2049 (Enqueue it))) = 1) /\
      Forall (fun b => 1 <= Z.of_nat (length b) <= 512) (sent st) /\
      (sent st' <> sent st <->
         stopped st = false /\
         ((exists now t0 it rest,
             (ev = Timer now \/ ev = Receive now) /\
             batch st = (t0, it) :: rest /\ t0 + 5 * time_Second <= now) \/
          (exists now,
             ev = Receive now /\ mailbox st <> [] /\
             Z.of_nat (length (batch st)) + 1 = 512) \/
          (exists now,
             ev = Shutdown now /\ (batch st <> [] \/ mailbox st <> [])))).
Proof.
  eexists. split; [reflexivity|]. cbv zeta. cbn [tp_batcher].
  split; [reflexivity|]. split; [reflexivity|]. split; [reflexivity|].
  intros Item history ev.
  change {| MaxExportBatchSize := 512; BatchTimeout := 5 * time_Second;
            MaxQueueSize := 2048 |} with provider_options.
  destruct (run_ok provider_options ltac:(cbn; lia) ltac:(cbn; lia) history)
    as (Hinv & Hholds).
  set (st := run provider_options history) in *.
  rewrite run_snoc. fold st.
  split; [|split; [|split; [|split; [|split]]]].
  - destruct Hholds as (Hm & _ & Hex). auto.
  - apply Hinv.
  - intros it -> Hrun. unfold step. rewrite Hrun. unfold enqueue.
    change (MaxQueueSize provider_options) with 2048.
    destruct (_ <? _); cbn; auto.
  - intros it. split; vm_compute; reflexivity.
  - apply Hinv.
  - apply (flush_iff provider_options ltac:(cbn; lia) st _ ev Hinv Hholds).
Qed.

(** Two spans arrive at 1s and 2s and the timer fires at 6s: one batch
    with both is sent. *)
Example flush_on_timeout :
  sent (run provider_options
          [Enqueue "a"; Enqueue "b"; Receive (1 * time_Second);
           Receive (2 * time_Second); Timer (5 * time_Second);
           Timer (6 * time_Second)])
  = [["a"; "b"]].
Proof. reflexivity. Qed.

(** With batches of two, the second span flushes at once. *)
Example flush_on_size :
  sent (run {| MaxExportBatchSize := 2; BatchTimeout := 5 * time_Second;
               MaxQueueSize := 2048 |}
          [Enqueue "a"; Enqueue "b"; Enqueue "c"; Receive 1; Receive 2; Receive 3])
  = [["a"; "b"]].
Proof. reflexivity. Qed.

(** A full mailbox drops the item. *)
Example drop_when_full :
  let st := run {| MaxExportBatchSize := 2; BatchTimeout := 5 * time_Second;
                   MaxQueueSize := 1 |} [Enqueue "a"; Enqueue "b"] in
  mailbox st = ["a"] /\ dropped st = 1.
Proof. split; reflexivity. Qed.

(** A shutdown sends what is in the batch and in the mailbox, in batches
    of at most the maximum size, and the pipeline takes nothing after
    it. *)
Example shutdown_drains :
  let st := run {| MaxExportBatchSize := 2; BatchTimeout := 5 * time_Second;
                   MaxQueueSize := 2048 |}
              [Enqueue "a"; Enqueue "b"; Enqueue "c"; Receive 1; Shutdown 2;
               Enqueue "d"; Receive 3; Timer 9] in
  sent st = [["a"; "b"]; ["c"]] /\ mailbox st = [] /\ batch st = [] /\
  dropped st = 0.
Proof. repeat split; reflexivity. Qed.

End BatchProperties.

(** ** Shutdown *)

Module ShutdownProperties.
Import Env Tracing.

Lemma InitObservability_shutdown env i serviceName endpoint g obs g' :
  InitObservability env i serviceName endpoint g = (inr obs, g') ->
  obs_shutdown obs = shutdown (obs_tracerProvider obs) (obs_meterProvider obs).
Proof.
  unfold InitObservability. intros H.
  destruct (newResource _ _ _); [discriminate|].
  destruct (newTracerProvider _ _ _); [discriminate|].
  destruct (newMeterProvider _ _); [discriminate|].
  injection H as <- _. reflexivity.
Qed.

(** When the tracer provider shuts down without an error, both
    providers are shut down, the tracer provider first. *)
Lemma shutdown_calls_both tp mp r :
  tracerShutdownErr r = None ->
  snd (shutdown tp mp r) = [TracerProviderShutdown; MeterProviderShutdown].
Proof. intros H. unfold shutdown. rewrite H. destruct (meterShutdownErr r); reflexivity. Qed.

(** C4.  The shutdown function returned by [InitObservability] stops
    after the tracer provider when its [Shutdown] returns an error: the
    error is wrapped and returned, and [Shutdown] of the meter provider
    is not called. *)
Theorem shutdown_skips_meter_provider_on_tracer_error
    env i serviceName endpoint g obs g' r err :
  InitObservability env i serviceName endpoint g = (inr obs, g') ->
  tracerShutdownErr r = Some err ->
  obs_shutdown obs r =
    (Some ("failed to shutdown tracer provider: " +:+ err), [TracerProviderShutdown]) /\
  MeterProviderShutdown ∉ snd (obs_shutdown obs r).
Proof.
  intros Hinit Herr. rewrite (InitObservability_shutdown _ _ _ _ _ _ _ Hinit).
  unfold shutdown. rewrite Herr. split; [reflexivity|]. cbn.
  rewrite list_elem_of_singleton. discriminate.
Qed.

Definition all_created : InitResults :=
  {| resourceErr := None; traceExporterErr := None; metricExporterErr := None |}.

Definition tracer_times_out : ShutdownResults :=
  {| tracerShutdownErr := Some "context deadline exceeded";
     meterShutdownErr := None |}.

Definition started : Observability :=
  match fst (InitObservability ∅ all_created "order-service" "localhost:4318" noGlobals) with
  | inr obs => obs
  | inl _ =>
      {| obs_tracerProvider :=
           {| tp_endpoint := "";
              tp_batcher := {| MaxExportBatchSize := 0; BatchTimeout := 0;
                               MaxQueueSize := 0 |};
              tp_sampler := ParentBasedAlwaysSample |};
         obs_meterProvider := {| mp_endpoint := ""; mp_interval := 0 |};
         obs_shutdown := fun _ => (None, []) |}
  end.

Lemma shutdown_skips_meter_provider_on_tracer_error_witness :
  obs_shutdown started tracer_times_out =
    (Some "failed to shutdown tracer provider: context deadline exceeded",
     [TracerProviderShutdown]) /\
  MeterProviderShutdown ∉ snd (obs_shutdown started tracer_times_out).
Proof.
  apply (shutdown_skips_meter_provider_on_tracer_error
           ∅ all_created "order-service" "localhost:4318" noGlobals started
           (snd (InitObservability ∅ all_created "order-service" "localhost:4318"
                   noGlobals))
           tracer_times_out "context deadline exceeded"); reflexivity.
Defined.

End ShutdownProperties.

(** ** The logger *)

Module LoggingProperties.
Import Env Trace Logging.

(** Only the value "debug" of LOG_LEVEL changes the threshold. *)
Lemma NewLogger_level env :
  lg_Level (NewLogger env) =
    if String.eqb (os_Getenv env "LOG_LEVEL") "debug" then LevelDebug else LevelInfo.
Proof. reflexivity. Qed.

Lemma NewLogger_debug :
  lg_Level (NewLogger {[ "LOG_LEVEL" := "debug" ]}) = LevelDebug.
Proof. reflexivity. Qed.

Lemma NewLogger_info :
  lg_Level (NewLogger {[ "LOG_LEVEL" := "info" ]}) = LevelInfo.
Proof. reflexivity. Qed.

(** C7.  With LOG_LEVEL set to "warn" or to "error" the logger is built
    with the threshold Info: a record at level Info, which is below the
    configured level, is emitted. *)
Theorem NewLogger_ignores_warn_and_error :
  let warn := NewLogger {[ "LOG_LEVEL" := "warn" ]} in
  let error := NewLogger {[ "LOG_LEVEL" := "error" ]} in
  lg_Level warn = LevelInfo /\ lg_Level warn <> LevelWarn /\
  Enabled warn LevelInfo = true /\
  lg_Level error = LevelInfo /\ lg_Level error <> LevelError /\
  Enabled error LevelInfo = true /\ Enabled error LevelWarn = true /\
  Logger_Log warn context_Background LevelInfo "order creation started" [] []
  = [{| rec_level := LevelInfo; rec_msg := "order creation started"; rec_args := [] |}].
Proof. cbv zeta. repeat split; try reflexivity; discriminate. Qed.

(** The fields the correlator adds. *)
Definition correlation (sc : SpanContext) : list Attr :=
  [slog_String "trace_id" (TraceID_String (traceID sc));
   slog_String "span_id" (SpanID_String (spanID sc))].

(** A span context that is valid and not sampled, as a trace that the
    ratio sampler dropped has. *)
Definition unsampled : SpanContext :=
  {| traceID := 2 ^ 64 - 1; spanID := 7; traceFlags := 0 |}.

Definition unsampled_ctx : Context :=
  Some {| span_obj := 1; span_sc := unsampled; span_recording := false |}.

Definition info_logger : Logger := {| lg_Level := LevelInfo; lg_AddSource := true |}.

(** C2, as stated, fails: a context whose span context is valid but not
    sampled gets the two fields. *)
Lemma LogWithTrace_correlates_unsampled_context :
  IsSampled unsampled = false /\
  LogWithTrace unsampled_ctx info_logger LevelInfo "order creation started" [] []
  = [{| rec_level := LevelInfo; rec_msg := "order creation started";
        rec_args := [("trace_id", VString "0000000000000000ffffffffffffffff");
                     ("span_id", VString "0000000000000007")] |}] /\
  LogWithTrace unsampled_ctx info_logger LevelInfo "order creation started" [] []
  <> Logger_Log info_logger unsampled_ctx LevelInfo "order creation started" [] [].
Proof. repeat split; try reflexivity. discriminate. Qed.

(** C2, amended.  The call passes to the logger the fields it was given
    followed by [trace_id] and [span_id] exactly when the span context
    of the context is valid (both identifiers non-zero), and the fields
    it was given otherwise, in particular when the context carries no
    span; the sampled flag plays no part. *)
Theorem LogWithTrace_correlates_valid_contexts
    (ctx : Context) (logger : Logger) (level : Z) (msg : string)
    (args : list Attr) (sink : list LogRecord) :
  let sc := span_sc (SpanFromContext ctx) in
  (IsValid sc = true ->
     LogWithTrace ctx logger level msg args sink
     = Logger_Log logger ctx level msg (args ++ correlation sc) sink) /\
  (IsValid sc = false ->
     LogWithTrace ctx logger level msg args sink
     = Logger_Log logger ctx level msg args sink) /\
  (ctx = None ->
     LogWithTrace ctx logger level msg args sink
     = Logger_Log logger ctx level msg args sink) /\
  (forall s flags,
     ctx = Some s ->
     LogWithTrace
       (Some {| span_obj := span_obj s;
                span_sc := {| traceID := traceID (span_sc s);
                              spanID := spanID (span_sc s);
                              traceFlags := flags |};
                span_recording := span_recording s |})
       logger level msg args sink
     = LogWithTrace ctx logger level msg args sink).
Proof.
  cbv zeta. unfold LogWithTrace, correlation. repeat split.
  - intros ->. reflexivity.
  - intros ->. reflexivity.
  - intros ->. reflexivity.
  - intros s flags ->. unfold Logger_Log. reflexivity.
Qed.

End LoggingProperties.

(** ** The order handler *)

Module ServiceProperties.
Import Env Tracing Trace Logging Metrics Service.

(** *** Validation *)

(** The request passes the four checks the error messages name. *)
Definition well_formed (req : CreateOrderRequest) : Prop :=
  UserID req <> "" /\ ProductID req <> "" /\ 0 < Quantity req /\
  (0 <? Amount req)%float = true.

Lemma zero_is_zero : Prim2SF 0 = S754_zero false.
Proof. reflexivity. Qed.

(** For a number, not being at most zero is being above zero. *)
Lemma float_positive_iff (f : float) :
  is_nan f = false -> (f <=? 0)%float = false <-> (0 <? f)%float = true.
Proof.
  unfold is_nan. rewrite FloatAxioms.eqb_spec, leb_spec, ltb_spec, zero_is_zero.
  destruct (Prim2SF f) as [[|]|[|]| |[|] m e]; cbn; intuition congruence.
Qed.

Lemma validateRequest_accepts (req : CreateOrderRequest) :
  validateRequest req = None <->
  UserID req <> "" /\ ProductID req <> "" /\ 0 < Quantity req /\
  (Amount req <=? 0)%float = false.
Proof.
  unfold validateRequest.
  destruct (String.eqb_spec (UserID req) ""); [intuition congruence|].
  destruct (String.eqb_spec (ProductID req) ""); [intuition congruence|].
  destruct (Z.leb_spec (Quantity req) 0); [split; [discriminate|lia]|].
  destruct (Amount req <=? 0)%float; [intuition congruence|].
  intuition auto with zarith.
Qed.

Definition nan_request : CreateOrderRequest :=
  {| UserID := "test-user"; ProductID := "test-product"; Quantity := 2;
     Amount := nan |}.

(** Why the amount has to be a number below: no comparison holds of
    the amount that is not a number, so it is not at most zero and
    passes the check, although it is not above zero either.  The
    handler never meets it: [json.Decoder.Decode] fills [Amount] from a
    JSON number literal, which is finite, or fails. *)
Lemma validateRequest_accepts_nan :
  validateRequest nan_request = None /\ ~ well_formed nan_request.
Proof.
  split; [reflexivity|]. intros (_ & _ & _ & H). discriminate H.
Qed.

(** *** Executions of the handler *)

(** The measurements of one instrument. *)
Definition updates_of (i : Instrument) (ms : list Measurement) : list Measurement :=
  List.filter (fun m => String.eqb (inst_name (m_instrument m)) (inst_name i)) ms.

(** The status calls made on spans: the span object and the code. *)
Definition status_calls (l : list (Span * SpanOp)) : list (nat * Code) :=
  omap (fun c => match snd c with
                 | OpSetStatus code _ => Some (span_obj (fst c), code)
                 | _ => None
                 end) l.

(** No span is set to Ok after it was set to Error. *)
Definition forward_only (l : list (Span * SpanOp)) : Prop :=
  forall (i j : nat) s d s' d',
    (i < j)%nat ->
    l !! i = Some (s, OpSetStatus Error d) ->
    l !! j = Some (s', OpSetStatus Ok d') ->
    span_obj s <> span_obj s'.

(** A check of the status calls that computes: after a call with Error
    no call with Ok follows, on any span. *)
Fixpoint no_ok (l : list (nat * Code)) : bool :=
  match l with
  | [] => true
  | (_, Ok) :: _ => false
  | _ :: l' => no_ok l'
  end.

Fixpoint ok_before_error (l : list (nat * Code)) : bool :=
  match l with
  | [] => true
  | (_, Error) :: l' => no_ok l'
  | _ :: l' => ok_before_error l'
  end.

Lemma no_ok_lookup l j n : no_ok l = true -> l !! j = Some (n, Ok) -> False.
Proof.
  revert j. induction l as [|[m c] l IH]; intros j Hc Hj; [discriminate Hj|].
  destruct j as [|j]; cbn in Hj.
  - injection Hj as -> ->. discriminate Hc.
  - destruct c; cbn in Hc; try discriminate Hc; eapply IH; eauto.
Qed.

Lemma ok_before_error_lookup l i j n m :
  ok_before_error l = true -> (i < j)%nat ->
  l !! i = Some (n, Error) -> l !! j = Some (m, Ok) -> False.
Proof.
  revert i j. induction l as [|[k c] l IH]; intros i j Hc Hlt Hi Hj; [discriminate Hi|].
  destruct j as [|j]; [lia|]. destruct i as [|i]; cbn in Hi, Hj.
  - injection Hi as -> ->. cbn in Hc. eapply no_ok_lookup; eauto.
  - destruct c; cbn in Hc.
    + eapply (IH i j); eauto; lia.
    + apply (no_ok_lookup l j m Hc Hj).
    + eapply (IH i j); eauto; lia.
Qed.

(** Positions of the span calls and of their status calls correspond in
    order. *)
Lemma status_calls_order (l : list (Span * SpanOp)) i j s d s' d' :
  (i < j)%nat ->
  l !! i = Some (s, OpSetStatus Error d) ->
  l !! j = Some (s', OpSetStatus Ok d') ->
  exists i' j', (i' < j')%nat /\
    status_calls l !! i' = Some (span_obj s, Error) /\
    status_calls l !! j' = Some (span_obj s', Ok).
Proof.
  revert i j. induction l as [|c l IH]; intros i j Hlt Hi Hj; [discriminate Hi|].
  destruct j as [|j]; [lia|]. destruct i as [|i]; cbn in Hi, Hj.
  - injection Hi as ->. unfold status_calls. cbn.
    assert (Hin : (span_obj s', Ok) ∈ status_calls l).
    { apply list_elem_of_omap. exists (s', OpSetStatus Ok d'). split; [|reflexivity].
      apply list_elem_of_lookup. eauto. }
    apply list_elem_of_lookup in Hin as [j' Hj'].
    exists 0%nat, (S j'). split; [lia|]. split; [reflexivity|exact Hj'].
  - destruct (IH i j ltac:(lia) Hi Hj) as (i' & j' & Hlt' & Hi' & Hj').
    unfold status_calls in *. cbn.
    destruct c as [s0 op]. destruct op; cbn;
      try (exists i', j'; auto; fail).
    exists (S i'), (S j'). split; [lia|]. auto.
Qed.

Lemma forward_only_check (l : list (Span * SpanOp)) :
  ok_before_error (status_calls l) = true -> forward_only l.
Proof.
  intros Hc i j s d s' d' Hlt Hi Hj _.
  destruct (status_calls_order l i j s d s' d' Hlt Hi Hj) as (i' & j' & Hlt' & Hi' & Hj').
  eapply ok_before_error_lookup; eauto.
Qed.

(** The run of the handler on a request, from a fresh world. *)
Definition handle {Rt G : Type} `{!Runtime Rt} `{!IDGenerator G}
    (tp : TracerProvider) (lg : Logger) (ctx : Context)
    (decoded : string + CreateOrderRequest) (rt : Rt) (g : G) : World :=
  snd (CreateOrderHandler (NewOrderService tp lg NewMetrics)
         {| req_Context := ctx; req_Decoded := decoded |} (init rt g)).

Definition error_update (type : string) : Measurement :=
  {| m_instrument := ErrorCounter NewMetrics; m_value := VInt 1;
     m_attrs := [attribute_String "error.type" type] |}.

Definition success_update : Measurement :=
  {| m_instrument := OrderCounter NewMetrics; m_value := VInt 1;
     m_attrs := [attribute_String "status" "success"] |}.

Section Executions.
Context {Rt G : Type} `{!Runtime Rt} `{!IDGenerator G}.

#[local] Arguments InfoWithTrace : simpl never.
#[local] Arguments ErrorWithTrace : simpl never.
#[local] Arguments DebugWithTrace : simpl never.
#[local] Arguments WarnWithTrace : simpl never.
#[local] Arguments Sampler.ShouldSample : simpl never.
#[local] Arguments pretty : simpl never.
#[local] Arguments float64_of_int64 : simpl never.
#[local] Arguments Milliseconds : simpl never.
#[local] Arguments TraceID_String : simpl never.
#[local] Arguments validateRequest : simpl never.
#[local] Arguments Z.add : simpl never.
#[local] Arguments Z.mul : simpl never.
#[local] Arguments Z.sub : simpl never.
#[local] Arguments Z.lor : simpl never.
#[local] Arguments Z.land : simpl never.

(** One step of symbolic execution: the decision of the sampler is
    named, and the next thing the handler takes from its surroundings
    or from the request is analysed by cases. *)
Ltac branch :=
  match goal with
  | |- context [Sampler.ShouldSample ?s ?p] =>
      generalize (Sampler.ShouldSample s p); intros ?
  | |- context [new_ids ?a ?g] => destruct (new_ids a g) as [[? ?] ?] eqn:?
  | |- context [time_Now ?rt] => destruct (time_Now rt) as [? ?] eqn:?
  | |- context [rand_Intn ?n ?rt] => destruct (rand_Intn n rt) as [? ?] eqn:?
  | |- context [rand_Float64 ?rt] => destruct (rand_Float64 rt) as [? ?] eqn:?
  | |- context [validateRequest ?r] => destruct (validateRequest r) as [?|] eqn:?
  | |- context [PrimFloat.ltb ?x ?c] => destruct (PrimFloat.ltb x c) eqn:?
  | |- context [Z.eqb ?k 0] => destruct (Z.eqb k 0) eqn:?
  end.

Ltac execute :=
  unfold handle, CreateOrderHandler, processOrder, checkInventory, processPayment,
    reserveInventory, http_Error, instrument_Add, span_SetStatus, span_RecordError,
    span_AddEvent, span_SetAttributes, span_End, span_call, log, enter,
    tracer_Start, Now, Sleep, Intn, Float64, Header_Set, WriteHeader, Write,
    respond, init, mbind, mret, M_bind, M_ret;
  cbn; repeat (branch; cbn).

(** C9.  For a request whose amount is a number, as every amount that
    the handler decodes from JSON is, [validateRequest] returns nil if and
    only if the user id and the product id are non-empty and the
    quantity and the amount are above zero; and for every such request
    that fails one of the four conditions the handler answers with
    status 400 and does not enter [processOrder]. *)
Theorem validateRequest_accepts_well_formed_numbers
    (req : CreateOrderRequest) (tp : TracerProvider) (lg : Logger)
    (ctx : Context) (rt : Rt) (g : G) :
  is_nan (Amount req) = false ->
  (validateRequest req = None <-> well_formed req) /\
  (~ well_formed req ->
   let w := handle tp lg ctx (inr req) rt g in
   resp_Code (w_resp w) = StatusBadRequest /\ "processOrder" ∉ w_calls w).
Proof.
  intros Hnum.
  assert (Hiff : validateRequest req = None <-> well_formed req).
  { rewrite validateRequest_accepts. unfold well_formed.
    rewrite (float_positive_iff _ Hnum). reflexivity. }
  split; [exact Hiff|]. intros Hbad. cbv zeta.
  generalize (eq_refl (handle tp lg ctx (inr req) rt g)).
  generalize (handle tp lg ctx (inr req) rt g) at 2 3 4.
  intros w. execute; try (exfalso; apply Hbad, Hiff; reflexivity).
  intros Hw. subst w. cbn. split; [reflexivity|].
  rewrite list_elem_of_singleton. discriminate.
Qed.

(** C10.  Every execution of the handler records exactly one outcome:
    either it writes status 201 and adds one to the order counter once
    with status "success" and nothing to the error counter, or it
    writes another status and adds one to the error counter once, with
    the single attribute error.type being one of invalid_request,
    validation_error and processing_error, and nothing to the order
    counter. *)
Theorem exactly_one_outcome_metric
    (tp : TracerProvider) (lg : Logger) (ctx : Context)
    (decoded : string + CreateOrderRequest) (rt : Rt) (g : G) :
  let w := handle tp lg ctx decoded rt g in
  (resp_Code (w_resp w) = StatusCreated /\
   resp_wroteHeader (w_resp w) = true /\
   updates_of (OrderCounter NewMetrics) (w_metrics w) = [success_update] /\
   updates_of (ErrorCounter NewMetrics) (w_metrics w) = [])
  \/
  (resp_Code (w_resp w) <> StatusCreated /\
   updates_of (OrderCounter NewMetrics) (w_metrics w) = [] /\
   exists type,
     type ∈ ["invalid_request"; "validation_error"; "processing_error"] /\
     updates_of (ErrorCounter NewMetrics) (w_metrics w) = [error_update type]).
Proof.
  cbv zeta.
  generalize (eq_refl (handle tp lg ctx decoded rt g)).
  generalize (handle tp lg ctx decoded rt g) at 2 3 4 5 6 7 8.
  intros w. destruct decoded as [err|req]; execute; intros Hw; subst w; cbn.
  all: first
    [ left; repeat split; reflexivity
    | right; split; [discriminate|]; split; [reflexivity|];
      eexists; split; [|reflexivity]; set_solver ].
Qed.

(** C6.  The measurements of an execution do not depend on sampling:
    two executions on the same decoded body, in the same surroundings,
    with any two tracer providers (any two samplers) and any two
    incoming contexts (sampled or not) record the same measurements in
    the same order. *)
Theorem metrics_independent_of_sampling
    (tp1 tp2 : TracerProvider) (lg : Logger) (ctx1 ctx2 : Context)
    (decoded : string + CreateOrderRequest) (rt : Rt) (g : G) :
  w_metrics (handle tp1 lg ctx1 decoded rt g)
  = w_metrics (handle tp2 lg ctx2 decoded rt g).
Proof.
  generalize (eq_refl (handle tp1 lg ctx1 decoded rt g)).
  generalize (handle tp1 lg ctx1 decoded rt g) at 2 3.
  generalize (eq_refl (handle tp2 lg ctx2 decoded rt g)).
  generalize (handle tp2 lg ctx2 decoded rt g) at 2 3.
  intros w2 H2 w1. revert H2.
  destruct decoded as [err|req]; execute; intros H1 H2; subst w1 w2; reflexivity.
Qed.

(** C8.  In every execution of the handler, nested operations
    included, no span has its status set to Ok after it was set to
    Error. *)
Theorem span_status_moves_forward
    (tp : TracerProvider) (lg : Logger) (ctx : Context)
    (decoded : string + CreateOrderRequest) (rt : Rt) (g : G) :
  forward_only (w_spans (handle tp lg ctx decoded rt g)).
Proof.
  apply forward_only_check.
  generalize (eq_refl (handle tp lg ctx decoded rt g)).
  generalize (handle tp lg ctx decoded rt g) at 2 3.
  intros w. destruct decoded as [err|req]; execute; intros Hw; subst w; reflexivity.
Qed.

End Executions.

End ServiceProperties.

(** ** Concrete runs *)

Module Runs.
Import Env Tracing Trace Logging Metrics Service Script ServiceProperties.

Definition provider (rate : float) : TracerProvider :=
  {| tp_endpoint := "localhost:4318";
     tp_batcher := {| MaxExportBatchSize := 512; BatchTimeout := 5 * time_Second;
                      MaxQueueSize := 2048 |};
     tp_sampler := TraceIDRatioBased rate |}.

Definition info : Logger := NewLogger ∅.

(** The requests of the tests. *)
Definition valid_request : CreateOrderRequest :=
  {| UserID := "test-user"; ProductID := "test-product"; Quantity := 2;
     Amount := 0x1.8ff5c28f5c28fp+6 |}.

Definition zero_quantity : CreateOrderRequest :=
  {| UserID := "test-user"; ProductID := "test-product"; Quantity := 0;
     Amount := 0x1.8ff5c28f5c28fp+6 |}.

Definition negative_amount : CreateOrderRequest :=
  {| UserID := "test-user"; ProductID := "test-product"; Quantity := 2;
     Amount := -10 |}.

(** Draws under which inventory and payment succeed, and a clock. *)
Definition calm : Rt := {| draws := [7; 50; 20; 3; 50; 9]; clock := 1000 |}.

(** Draws under which the payment is declined. *)
Definition declined : Rt := {| draws := [7; 50; 20; 3; 2; 9]; clock := 1000 |}.

Example valid_request_accepted : validateRequest valid_request = None.
Proof. reflexivity. Qed.

Example zero_quantity_rejected :
  validateRequest zero_quantity = Some "quantity must be positive".
Proof. reflexivity. Qed.

Example negative_amount_rejected :
  validateRequest negative_amount = Some "amount must be positive".
Proof. reflexivity. Qed.

Lemma validateRequest_accepts_well_formed_numbers_witness :
  is_nan (Amount zero_quantity) = false /\
  (validateRequest zero_quantity = None <-> well_formed zero_quantity) /\
  (~ well_formed zero_quantity ->
   let w := handle (provider 1) info None (inr zero_quantity) calm 100 in
   resp_Code (w_resp w) = StatusBadRequest /\ "processOrder" ∉ w_calls w).
Proof.
  split; [reflexivity|].
  apply (validateRequest_accepts_well_formed_numbers
           zero_quantity (provider 1) info None calm 100).
  reflexivity.
Defined.

Example created :
  let w := handle (provider 1) info None (inr valid_request) calm 100 in
  resp_Code (w_resp w) = 201 /\
  w_calls w = ["CreateOrderHandler"; "processOrder"; "checkInventory";
               "processPayment"; "reserveInventory"] /\
  status_calls (w_spans w) = [(3%nat, Ok); (1%nat, Ok)].
Proof. repeat split; reflexivity. Qed.

Example payment_declined :
  let w := handle (provider 1) info None (inr valid_request) declined 100 in
  resp_Code (w_resp w) = 500 /\
  updates_of (ErrorCounter NewMetrics) (w_metrics w) = [error_update "processing_error"] /\
  status_calls (w_spans w) = [(3%nat, Error); (1%nat, Error)].
Proof. repeat split; reflexivity. Qed.

Example bad_body :
  let w := handle (provider 1) info None (inl "unexpected EOF") calm 100 in
  resp_Code (w_resp w) = 400 /\
  w_metrics w = [error_update "invalid_request"].
Proof. repeat split; reflexivity. Qed.

(** The same request, once with every trace sampled and once with none:
    the spans record in the first run only, the measurements agree, and
    the unsampled run still stamps its log records. *)
Example sampled_and_unsampled :
  let w1 := handle (provider 1) info None (inr valid_request) calm 100 in
  let w0 := handle (provider 0) info None (inr valid_request) calm 100 in
  forallb (fun c => span_recording (fst c)) (w_spans w1) = true /\
  forallb (fun c => negb (span_recording (fst c))) (w_spans w0) = true /\
  w_metrics w1 = w_metrics w0 /\
  map (fun m => inst_name (m_instrument m)) (w_metrics w0)
  = ["inventory.requests"; "orders.duration"; "orders.created";
     "payments.total_amount"] /\
  map (fun r => keys (rec_args r)) (w_logs w0)
  = [["trace_id"; "span_id"];
     ["order_id"; "duration_ms"; "trace_id"; "span_id"]].
Proof. repeat split; reflexivity. Qed.

End Runs.

(** * Further properties of the sources *)

(** ** Environment and initialisation (tracing.go) *)

Module InitProperties.
Import Env Tracing.

Lemma getEnv_nonempty (env : gmap string string) (key d : string) :
  d <> "" -> getEnv env key d <> "".
Proof.
  unfold getEnv, os_Getenv. intros Hd.
  destruct (String.eqb_spec (default "" (env !! key)) ""); cbn; auto.
Qed.

(** [getEnv] treats an empty value like an unset variable, returns any
    other value as it is, does not look at other variables, and never
    returns the empty string when the default is not empty. *)
Theorem getEnv_empty_counts_as_unset
    (env : gmap string string) (key d : string) :
  (env !! key = None -> getEnv env key d = d) /\
  getEnv (<[key := ""]> env) key d = d /\
  (forall v, v <> "" -> getEnv (<[key := v]> env) key d = v) /\
  (forall key' v, key' <> key -> getEnv (<[key' := v]> env) key d = getEnv env key d) /\
  (d <> "" -> getEnv env key d <> "").
Proof.
  unfold getEnv, os_Getenv. repeat split.
  - intros ->. reflexivity.
  - rewrite lookup_insert_eq. reflexivity.
  - intros v Hv. rewrite lookup_insert_eq. cbn.
    destruct (String.eqb_spec v ""); [contradiction|reflexivity].
  - intros key' v Hne. rewrite lookup_insert_ne by exact Hne. reflexivity.
  - intros Hd. destruct (String.eqb_spec (default "" (env !! key)) ""); cbn; auto.
Qed.

Lemma rates_differ : rate_default <> rate_production.
Proof. intros H. apply (f_equal Prim2SF) in H. discriminate H. Qed.

(** The resource and the sampler read ENVIRONMENT alike: the deployment
    environment attribute of the resource is "production" exactly when
    the sampler keeps one trace in ten, it is "development" when the
    variable is unset, and it is never empty. *)
Theorem resource_environment_matches_sampler
    (env : gmap string string) (serviceName endpoint : string) :
  exists res tp,
    newResource env None serviceName = inr res /\
    newTracerProvider env None endpoint = inr tp /\
    (res_environment res = "production" <->
     tp_sampler tp = TraceIDRatioBased rate_production) /\
    (env !! "ENVIRONMENT" = None -> res_environment res = "development") /\
    res_environment res <> "".
Proof.
  eexists _, _. split; [reflexivity|]. split; [reflexivity|].
  cbn [res_environment tp_sampler]. unfold samplingRate.
  split; [split|split].
  - intros ->. reflexivity.
  - destruct (String.eqb_spec (getEnv env "ENVIRONMENT" "development") "production")
      as [|Hne]; [auto|].
    intros H. exfalso. apply rates_differ.
    exact (f_equal (fun s => match s with
                             | TraceIDRatioBased f => f
                             | ParentBasedAlwaysSample => 0%float
                             end) H).
  - intros H. unfold getEnv, os_Getenv. rewrite H. reflexivity.
  - apply getEnv_nonempty. discriminate.
Qed.

(** [InitObservability] returns a shutdown function exactly when the
    resource and both exporters are created; both providers are then
    installed as the global ones, and the shutdown function is the one
    for these two providers. *)
Theorem InitObservability_succeeds_iff_all_created
    (env : gmap string string) (i : InitResults) (serviceName endpoint : string)
    (g : Globals) :
  let out := InitObservability env i serviceName endpoint g in
  ((exists obs, fst out = inr obs) <->
   resourceErr i = None /\ traceExporterErr i = None /\ metricExporterErr i = None) /\
  (forall obs, fst out = inr obs ->
     g_tracerProvider (snd out) = Some (obs_tracerProvider obs) /\
     g_meterProvider (snd out) = Some (obs_meterProvider obs) /\
     newTracerProvider env None endpoint = inr (obs_tracerProvider obs) /\
     obs_shutdown obs = shutdown (obs_tracerProvider obs) (obs_meterProvider obs)).
Proof.
  cbv zeta. unfold InitObservability, newResource, newTracerProvider, newMeterProvider.
  destruct (resourceErr i), (traceExporterErr i), (metricExporterErr i); cbn.
  all: split;
    [ split; [ intros [obs Hobs]; try discriminate Hobs; auto
             | intros (H1 & H2 & H3); try discriminate; eexists; reflexivity ]
    | intros obs Hobs; try discriminate Hobs;
      injection Hobs as <-; cbn; auto ].
Qed.

(** A failure leaves no shutdown function behind.  When the resource or
    the trace exporter fails the global providers are as before; when the
    metric exporter fails the tracer provider has already been installed
    as the global one, and nothing is returned to shut it down. *)
Theorem InitObservability_failure_leaves_tracer_installed
    (env : gmap string string) (i : InitResults) (serviceName endpoint : string)
    (g : Globals) (err : string) :
  let out := InitObservability env i serviceName endpoint g in
  (resourceErr i = Some err ->
     out = (inl ("failed to create resource: " +:+ err), g)) /\
  (resourceErr i = None -> traceExporterErr i = Some err ->
     out = (inl ("failed to create tracer provider: " +:+ err), g)) /\
  (resourceErr i = None -> traceExporterErr i = None -> metricExporterErr i = Some err ->
     fst out = inl ("failed to create meter provider: " +:+ err) /\
     (exists tp, newTracerProvider env None endpoint = inr tp /\
                 g_tracerProvider (snd out) = Some tp) /\
     g_meterProvider (snd out) = g_meterProvider g).
Proof.
  cbv zeta. unfold InitObservability, newResource, newTracerProvider, newMeterProvider.
  split; [|split].
  - intros ->. reflexivity.
  - intros -> ->. reflexivity.
  - intros -> -> ->. cbn. split; [reflexivity|]. split; [|reflexivity].
    eexists. split; reflexivity.
Qed.

(** The shutdown function returns nil exactly when both providers shut
    down without an error.  It always calls the tracer provider first;
    it calls the meter provider exactly when the tracer provider
    succeeded; and the error it returns names the provider that
    failed, an error of the tracer provider hiding what the meter
    provider would have returned. *)
Theorem shutdown_reports_first_failure
    (tp : TracerProvider) (mp : MeterProvider) (r : ShutdownResults) :
  (fst (shutdown tp mp r) = None <->
   tracerShutdownErr r = None /\ meterShutdownErr r = None) /\
  (exists rest, snd (shutdown tp mp r) = TracerProviderShutdown :: rest) /\
  (MeterProviderShutdown ∈ snd (shutdown tp mp r) <-> tracerShutdownErr r = None) /\
  (forall e, tracerShutdownErr r = Some e ->
     fst (shutdown tp mp r) = Some ("failed to shutdown tracer provider: " +:+ e)) /\
  (forall e, tracerShutdownErr r = None -> meterShutdownErr r = Some e ->
     fst (shutdown tp mp r) = Some ("failed to shutdown meter provider: " +:+ e)).
Proof.
  unfold shutdown.
  destruct (tracerShutdownErr r) as [e1|], (meterShutdownErr r) as [e2|]; cbn;
    repeat split; try (intros; eauto; congruence); try (eexists; reflexivity);
    try (intros (? & ?); congruence);
    try (rewrite list_elem_of_singleton; discriminate);
    try (intros _; set_solver).
Qed.

End InitProperties.

(** ** The correlator (logger.go) *)

Module CorrelatorProperties.
Import Env Trace Logging.

(** A call of [LogWithTrace] never touches the records already in the
    sink: either nothing is written (the level is below the threshold of
    the logger) or exactly one record is added at the end.  The record
    has the level and the message of the call, and its fields are the
    fields of the call, in order, followed by nothing or by [trace_id]
    and [span_id]. *)
Theorem LogWithTrace_adds_one_record_keeping_fields
    (ctx : Context) (logger : Logger) (level : Z) (msg : string)
    (args : list Attr) (sink : list LogRecord) :
  (Enabled logger level = false /\
   LogWithTrace ctx logger level msg args sink = sink)
  \/
  (Enabled logger level = true /\
   exists added,
     LogWithTrace ctx logger level msg args sink
     = sink ++ [{| rec_level := level; rec_msg := msg; rec_args := args ++ added |}] /\
     (added = [] \/ keys added = ["trace_id"; "span_id"])).
Proof.
  unfold LogWithTrace, Logger_Log.
  destruct (Enabled logger level); [right|left; auto].
  split; [reflexivity|].
  destruct (IsValid (span_sc (SpanFromContext ctx))).
  - eexists. split; [reflexivity|]. right. reflexivity.
  - exists []. rewrite app_nil_r. auto.
Qed.

(** With the logger that [NewLogger] builds, whatever the environment,
    the helpers for Info, Warn and Error each write exactly one record,
    and the helper for Debug writes one exactly when LOG_LEVEL is
    "debug" and none otherwise. *)
Theorem helpers_emit_by_level
    (env : gmap string string) (ctx : Context) (msg : string)
    (args : list Attr) (sink : list LogRecord) :
  let logger := NewLogger env in
  length (InfoWithTrace ctx logger msg args sink) = S (length sink) /\
  length (WarnWithTrace ctx logger msg args sink) = S (length sink) /\
  length (ErrorWithTrace ctx logger msg args sink) = S (length sink) /\
  (os_Getenv env "LOG_LEVEL" = "debug" ->
     length (DebugWithTrace ctx logger msg args sink) = S (length sink)) /\
  (os_Getenv env "LOG_LEVEL" <> "debug" ->
     DebugWithTrace ctx logger msg args sink = sink).
Proof.
  cbv zeta.
  unfold InfoWithTrace, WarnWithTrace, ErrorWithTrace, DebugWithTrace, LogWithTrace,
    Logger_Log, Enabled, NewLogger. cbn [lg_Level].
  destruct (String.eqb_spec (os_Getenv env "LOG_LEVEL") "debug") as [Heq|Hne]; cbn;
    rewrite ?length_app; cbn; repeat split; intros; try lia; congruence.
Qed.

End CorrelatorProperties.

(** ** Instrument creation (metrics.go) *)

Module MetricsInit.
Import Metrics.

(** What the five instrument constructors of the meter return, in the
    order in which [NewMetrics] calls them ([None]: success). *)
Record InstrumentResults := {
  orderCounterErr : option string;
  orderDurationErr : option string;
  paymentAmountErr : option string;
  inventoryRequestsErr : option string;
  errorCounterErr : option string
}.

(** [NewMetrics] with its error returns: the first constructor that
    fails ends it with that error. *)
Definition NewMetricsResult (r : InstrumentResults) : string + Metrics :=
  match orderCounterErr r with
  | Some err => inl err
  | None =>
      match orderDurationErr r with
      | Some err => inl err
      | None =>
          match paymentAmountErr r with
          | Some err => inl err
          | None =>
              match inventoryRequestsErr r with
              | Some err => inl err
              | None =>
                  match errorCounterErr r with
                  | Some err => inl err
                  | None => inr NewMetrics
                  end
              end
          end
      end
  end.

(** The errors of the constructors, in creation order. *)
Definition creation_errors (r : InstrumentResults) : list string :=
  omap id [orderCounterErr r; orderDurationErr r; paymentAmountErr r;
           inventoryRequestsErr r; errorCounterErr r].

(** The names under which the instruments of a [Metrics] are registered. *)
Definition instrument_names (m : Metrics) : list string :=
  map inst_name [OrderCounter m; OrderDuration m; PaymentAmount m;
                 InventoryRequests m; ErrorCounter m].

(** [NewMetrics] fails with the error of the first instrument that
    cannot be created, in the order orders.created, orders.duration,
    payments.total_amount, inventory.requests, errors.total, whatever
    the later constructors would return; when none fails it returns five
    instruments registered under pairwise distinct names. *)
Theorem NewMetrics_fails_with_first_error (r : InstrumentResults) :
  match creation_errors r with
  | err :: _ => NewMetricsResult r = inl err
  | [] =>
      exists m, NewMetricsResult r = inr m /\ NoDup (instrument_names m) /\
                length (instrument_names m) = 5%nat
  end.
Proof.
  unfold creation_errors, NewMetricsResult.
  destruct (orderCounterErr r), (orderDurationErr r), (paymentAmountErr r),
    (inventoryRequestsErr r), (errorCounterErr r); cbn; try reflexivity.
  eexists. split; [reflexivity|]. split; [|reflexivity].
  apply (bool_decide_unpack _). vm_compute. exact I.
Qed.

End MetricsInit.

(** ** The entry point (main.go) *)

Module Main.
Import Env Tracing Trace Logging Metrics MetricsInit Service.

(** What the calls of [main] into the SDK and the server return. *)
Record MainResults := {
  initResults : InitResults;
  instrumentResults : InstrumentResults;
  serverShutdownErr : option string;
  shutdownResults : ShutdownResults
}.

(** What the main goroutine does, as far as it can be seen from outside.
    [Fatalf] is [log.Fatalf]: the message is printed and the process
    exits with status 1 without running the deferred calls.  [Serve] is
    the start of the goroutine that serves requests, with the address
    and the service it is given; [AwaitSignal] is the receive from the
    signal channel. *)
Inductive Step :=
| Fatalf (msg : string)
| Serve (addr : string) (svc : OrderService)
| AwaitSignal
| LogInfo (msg : string)
| ServerShutdown (timeout : Z)
| Cancel
| TelemetryShutdown (calls : list ProviderCall).

Record Exit := {
  exit_steps : list Step;
  exit_status : Z
}.

(** [logger.Info]: written when Info is enabled. *)
Definition logger_Info (logger : Logger) (msg : string) : list Step :=
  if Enabled logger LevelInfo then [LogInfo msg] else [].

(** [main], for a run in which a signal arrives: the steps of the main
    goroutine and the exit status.  The two deferred calls run, last
    deferred first, when [main] returns. *)
Definition main (env : gmap string string) (r : MainResults) : Exit :=
  let serviceName := getEnv env "SERVICE_NAME" "order-service" in
  let otelEndpoint := getEnv env "OTEL_ENDPOINT" "localhost:4318" in
  match fst (InitObservability env (initResults r) serviceName otelEndpoint noGlobals) with
  | inl err =>
      {| exit_steps := [Fatalf ("Failed to initialize observability: " +:+ err)];
         exit_status := 1 |}
  | inr obs =>
      let logger := NewLogger env in
      match NewMetricsResult (instrumentResults r) with
      | inl err =>
          {| exit_steps := [Fatalf ("Failed to initialize metrics: " +:+ err)];
             exit_status := 1 |}
      | inr metrics =>
          let orderService := NewOrderService (obs_tracerProvider obs) logger metrics in
          let port := getEnv env "PORT" "8080" in
          let steps :=
            [Serve (":" +:+ port) orderService; AwaitSignal]
            ++ logger_Info logger "Server shutting down"
            ++ [ServerShutdown (30 * time_Second)] in
          match serverShutdownErr r with
          | Some err =>
              {| exit_steps := steps ++ [Fatalf ("Server forced to shutdown: " +:+ err)];
                 exit_status := 1 |}
          | None =>
              {| exit_steps :=
                   steps ++ logger_Info logger "Server stopped"
                   ++ [Cancel;
                       TelemetryShutdown (snd (obs_shutdown obs (shutdownResults r)))];
                 exit_status := 0 |}
          end
      end
  end.

End Main.

Module MainProperties.
Import Env Tracing Trace Logging Metrics MetricsInit Service Main.

(** Everything [main] needs was created and the server shut down
    cleanly. *)
Definition clean (r : MainResults) : Prop :=
  resourceErr (initResults r) = None /\
  traceExporterErr (initResults r) = None /\
  metricExporterErr (initResults r) = None /\
  creation_errors (instrumentResults r) = [] /\
  serverShutdownErr r = None.

Lemma creation_errors_nil r :
  creation_errors r = [] <-> NewMetricsResult r = inr NewMetrics.
Proof.
  unfold creation_errors, NewMetricsResult.
  destruct (orderCounterErr r), (orderDurationErr r), (paymentAmountErr r),
    (inventoryRequestsErr r), (errorCounterErr r); cbn; split; congruence.
Qed.

Lemma not_in_steps (l : list Step) :
  forallb (fun s => match s with TelemetryShutdown _ => false | _ => true end) l = true ->
  forall calls, TelemetryShutdown calls ∉ l.
Proof.
  intros H calls Hin. apply list_elem_of_In in Hin.
  rewrite forallb_forall in H. specialize (H _ Hin). discriminate H.
Qed.

(** The telemetry providers are shut down only on the clean way out.
    [main] exits with status 0 exactly when everything was created and
    the server shut down without an error; its last two steps are then
    the deferred cancel and the deferred telemetry shutdown, which calls
    the tracer provider.  On every other way out the last step is a
    [log.Fatalf] and the telemetry shutdown does not run, also when the
    providers had been created and installed before. *)
Theorem telemetry_shutdown_only_on_clean_exit
    (env : gmap string string) (r : MainResults) :
  let out := main env r in
  (exit_status out = 0 <-> clean r) /\
  (exit_status out = 0 ->
     exists before calls,
       exit_steps out = before ++ [Cancel; TelemetryShutdown calls] /\
       TracerProviderShutdown ∈ calls) /\
  (exit_status out <> 0 ->
     (exists before msg, exit_steps out = before ++ [Fatalf msg]) /\
     forall calls, TelemetryShutdown calls ∉ exit_steps out).
Proof.
  cbv zeta. unfold main, clean, InitObservability, newResource, newTracerProvider,
    newMeterProvider.
  destruct (resourceErr (initResults r)); cbn;
    [split; [|split];
       [split; [discriminate|intros (? & _); discriminate]
       |discriminate
       |intros _; split; [eexists [], _; reflexivity|apply not_in_steps; reflexivity]]|].
  destruct (traceExporterErr (initResults r)); cbn;
    [split; [|split];
       [split; [discriminate|intros (_ & ? & _); discriminate]
       |discriminate
       |intros _; split; [eexists [], _; reflexivity|apply not_in_steps; reflexivity]]|].
  destruct (metricExporterErr (initResults r)); cbn;
    [split; [|split];
       [split; [discriminate|intros (_ & _ & ? & _); discriminate]
       |discriminate
       |intros _; split; [eexists [], _; reflexivity|apply not_in_steps; reflexivity]]|].
  pose proof (creation_errors_nil (instrumentResults r)) as Hnil.
  destruct (NewMetricsResult (instrumentResults r)) as [e|m] eqn:Hm.
  { cbn. split; [|split].
    - split; [discriminate|]. intros (_ & _ & _ & H4 & _).
      apply Hnil in H4. discriminate H4.
    - discriminate.
    - intros _. split; [eexists [], _; reflexivity|]. apply not_in_steps. reflexivity. }
  assert (Hm' : creation_errors (instrumentResults r) = []).
  { unfold creation_errors. unfold NewMetricsResult in Hm.
    destruct (orderCounterErr _), (orderDurationErr _), (paymentAmountErr _),
      (inventoryRequestsErr _), (errorCounterErr _); try discriminate Hm; reflexivity. }
  destruct (serverShutdownErr r) as [e|]; cbn [exit_status exit_steps].
  - split; [|split].
    + split; [discriminate|]. intros (_ & _ & _ & _ & [=]).
    + discriminate.
    + intros _. split.
      * eexists (_ :: _ :: _ ++ _), _. reflexivity.
      * apply not_in_steps. unfold logger_Info.
        destruct (Enabled _ _); reflexivity.
  - split; [|split].
    + split; auto.
    + intros _.
      exists (Serve (":" +:+ getEnv env "PORT" "8080")
                (NewOrderService
                   {| tp_endpoint := getEnv env "OTEL_ENDPOINT" "localhost:4318";
                      tp_batcher := {| MaxExportBatchSize := 512;
                                       BatchTimeout := 5 * time_Second;
                                       MaxQueueSize := 2048 |};
                      tp_sampler := TraceIDRatioBased (samplingRate env) |}
                   (NewLogger env) m)
              :: AwaitSignal
              :: (logger_Info (NewLogger env) "Server shutting down"
                  ++ [ServerShutdown (30 * time_Second)])
                 ++ logger_Info (NewLogger env) "Server stopped").
      eexists. split.
      * cbn [app]. rewrite <- !app_assoc. reflexivity.
      * cbn [obs_shutdown]. unfold shutdown.
        destruct (tracerShutdownErr _); [|destruct (meterShutdownErr _)];
          apply list_elem_of_here.
    + intros H. contradiction H. reflexivity.
Qed.

End MainProperties.

(** ** More on the executions of the handler (order_service.go) *)

Module HandlerProperties.
Import Env Tracing Trace Logging Metrics Service ServiceProperties.

(** The calls on spans obey the discipline of [defer span.End()]: a
    span object is started once, every other call on it is made while
    it is open, it is ended while it is the innermost open span, and
    nothing is left open.  [open] is the stack of open spans and [seen]
    the spans started so far. *)
Fixpoint bracketed (open seen : list nat) (l : list (Span * SpanOp)) : bool :=
  match l with
  | [] => match open with [] => true | _ :: _ => false end
  | (s, OpStart _ _) :: l' =>
      negb (existsb (Nat.eqb (span_obj s)) seen)
      && bracketed (span_obj s :: open) (span_obj s :: seen) l'
  | (s, OpEnd) :: l' =>
      match open with
      | top :: rest => Nat.eqb top (span_obj s) && bracketed rest seen l'
      | [] => false
      end
  | (s, _) :: l' => existsb (Nat.eqb (span_obj s)) open && bracketed open seen l'
  end.

(** How many calls satisfying [p] are made on the span object [n]. *)
Definition count_calls (p : SpanOp -> bool) (n : nat) (l : list (Span * SpanOp)) : nat :=
  length (List.filter (fun c => Nat.eqb (span_obj (fst c)) n && p (snd c)) l).

Definition is_start (op : SpanOp) : bool :=
  match op with OpStart _ _ => true | _ => false end.

Definition is_end (op : SpanOp) : bool :=
  match op with OpEnd => true | _ => false end.

(** In a bracketed list of calls the ends of a span are its starts and
    the times it is open at the beginning. *)
Lemma bracketed_balanced l : forall open seen n,
  bracketed open seen l = true ->
  (count_calls is_start n l + count_occ Nat.eq_dec open n = count_calls is_end n l)%nat.
Proof.
  unfold count_calls.
  induction l as [|[s op] l IH]; intros open seen n H.
  - destruct open; [reflexivity|discriminate H].
  - destruct op; cbn in H |- *;
      try (apply andb_prop in H as [_ H]; rewrite Bool.andb_false_r;
           apply (IH _ _ n H)).
    + apply andb_prop in H as [_ H]. specialize (IH _ _ n H). cbn in IH.
      rewrite Bool.andb_true_r.
      destruct (Nat.eqb_spec (span_obj s) n) as [<-|Hne]; cbn.
      * destruct (Nat.eq_dec (span_obj s) (span_obj s)); [lia|contradiction].
      * destruct (Nat.eq_dec (span_obj s) n); [contradiction|lia].
    + destruct open as [|top rest]; [discriminate H|].
      apply andb_prop in H as [Htop H]. apply Nat.eqb_eq in Htop. subst top.
      specialize (IH _ _ n H). rewrite Bool.andb_true_r, Bool.andb_false_r. cbn.
      destruct (Nat.eqb_spec (span_obj s) n) as [<-|Hne]; cbn.
      * destruct (Nat.eq_dec (span_obj s) (span_obj s)); [lia|contradiction].
      * destruct (Nat.eq_dec (span_obj s) n); [contradiction|lia].
Qed.

(** In a bracketed list of calls a span seen before is not started
    again, and no span is started twice. *)
Lemma bracketed_starts_once l : forall open seen n,
  bracketed open seen l = true ->
  (existsb (Nat.eqb n) seen = true -> count_calls is_start n l = 0%nat) /\
  (count_calls is_start n l <= 1)%nat.
Proof.
  unfold count_calls.
  induction l as [|[s op] l IH]; intros open seen n H; [cbn; auto|].
  destruct op; cbn in H |- *;
    try (rewrite Bool.andb_false_r;
         first [ apply andb_prop in H as [_ H]
               | destruct open as [|top rest]; [discriminate H|];
                 apply andb_prop in H as [_ H] ];
         apply (IH _ _ n H)).
  apply andb_prop in H as [Hfresh H]. apply Bool.negb_true_iff in Hfresh.
  rewrite Bool.andb_true_r.
  destruct (IH _ _ n H) as [IH0 IH1]. cbn [existsb] in IH0.
  destruct (Nat.eqb_spec (span_obj s) n) as [<-|Hne]; cbn.
  - rewrite Nat.eqb_refl in IH0. rewrite (IH0 eq_refl). split; [|lia].
    intros Hseen. congruence.
  - split; [|exact IH1]. intros Hseen. apply IH0. rewrite Hseen.
    apply Bool.orb_true_r.
Qed.

(** The names of the spans started, in order. *)
Definition started_names (l : list (Span * SpanOp)) : list string :=
  omap (fun c => match snd c with OpStart name _ => Some name | _ => None end) l.

(** The methods of the service in the order in which an order that is
    created enters them. *)
Definition call_chain : list string :=
  ["CreateOrderHandler"; "processOrder"; "checkInventory"; "processPayment";
   "reserveInventory"].

Definition newline : string := String (ascii_of_nat 10) "".

(** Symbolic execution, as for the claims: the sampler's decisions are
    named and each thing taken from the surroundings is analysed. *)
Ltac case_step :=
  match goal with
  | |- context [Sampler.ShouldSample ?s ?p] =>
      generalize (Sampler.ShouldSample s p); intros ?
  | |- context [new_ids ?a ?g] => destruct (new_ids a g) as [[? ?] ?] eqn:?
  | |- context [time_Now ?rt] => destruct (time_Now rt) as [? ?] eqn:?
  | |- context [rand_Intn ?n ?rt] => destruct (rand_Intn n rt) as [? ?] eqn:?
  | |- context [rand_Float64 ?rt] => destruct (rand_Float64 rt) as [? ?] eqn:?
  | |- context [validateRequest ?r] => destruct (validateRequest r) as [?|] eqn:?
  | |- context [PrimFloat.ltb ?x ?c] => destruct (PrimFloat.ltb x c) eqn:?
  | |- context [Z.eqb ?k 0] => destruct (Z.eqb k 0) eqn:?
  end.

Ltac run_all :=
  unfold handle, CreateOrderHandler, processOrder, checkInventory, processPayment,
    reserveInventory, http_Error, instrument_Add, span_SetStatus, span_RecordError,
    span_AddEvent, span_SetAttributes, span_End, span_call, log, enter,
    tracer_Start, Now, Sleep, Intn, Float64, Header_Set, WriteHeader, Write,
    respond, init, mbind, mret, M_bind, M_ret;
  cbn; repeat (case_step; cbn).

Section Executions.
Context {Rt G : Type} `{!Runtime Rt} `{!IDGenerator G}.

#[local] Arguments InfoWithTrace : simpl never.
#[local] Arguments ErrorWithTrace : simpl never.
#[local] Arguments DebugWithTrace : simpl never.
#[local] Arguments WarnWithTrace : simpl never.
#[local] Arguments Sampler.ShouldSample : simpl never.
#[local] Arguments pretty : simpl never.
#[local] Arguments float64_of_int64 : simpl never.
#[local] Arguments Milliseconds : simpl never.
#[local] Arguments TraceID_String : simpl never.
#[local] Arguments validateRequest : simpl never.
#[local] Arguments String.append : simpl never.
#[local] Arguments Z.add : simpl never.
#[local] Arguments Z.mul : simpl never.
#[local] Arguments Z.sub : simpl never.
#[local] Arguments Z.lor : simpl never.
#[local] Arguments Z.land : simpl never.

(** Every execution leaves the span calls well bracketed: each span that
    is started is ended exactly once, after the spans started inside it,
    and no call is made on a span that is not open; in particular every
    span object has as many ends as starts, and at most one. *)
Theorem span_calls_well_bracketed
    (tp : TracerProvider) (lg : Logger) (ctx : Context)
    (decoded : string + CreateOrderRequest) (rt : Rt) (g : G) :
  let l := w_spans (handle tp lg ctx decoded rt g) in
  bracketed [] [] l = true /\
  forall n, count_calls is_start n l = count_calls is_end n l /\
            (count_calls is_end n l <= 1)%nat.
Proof.
  cbv zeta.
  assert (H : bracketed [] [] (w_spans (handle tp lg ctx decoded rt g)) = true).
  { generalize (eq_refl (handle tp lg ctx decoded rt g)).
    generalize (handle tp lg ctx decoded rt g) at 2 3.
    intros w. destruct decoded as [err|req]; run_all; intros Hw; subst w; reflexivity. }
  split; [exact H|]. intros n.
  pose proof (bracketed_balanced _ _ _ n H) as Hbal. cbn in Hbal.
  pose proof (bracketed_starts_once _ _ _ n H) as [_ Hone].
  lia.
Qed.

(** The response is written exactly once.  A body that does not decode
    gets 400 with the text "invalid request"; a request that
    [validateRequest] rejects gets 400 with its message; every other
    request gets 201 with a JSON body of status "success" and the
    JSON content type, or 500 with the text of the processing error. *)
Theorem response_written_once
    (tp : TracerProvider) (lg : Logger) (ctx : Context)
    (decoded : string + CreateOrderRequest) (rt : Rt) (g : G) :
  let w := handle tp lg ctx decoded rt g in
  resp_wroteHeader (w_resp w) = true /\
  match decoded with
  | inl _ =>
      resp_Code (w_resp w) = StatusBadRequest /\
      resp_Body (w_resp w) = [Text ("invalid request" +:+ newline)]
  | inr req =>
      match validateRequest req with
      | Some err =>
          resp_Code (w_resp w) = StatusBadRequest /\
          resp_Body (w_resp w) = [Text (err +:+ newline)]
      | None =>
          (resp_Code (w_resp w) = StatusCreated /\
           resp_Header (w_resp w) = [("Content-Type", "application/json")] /\
           exists id tid,
             resp_Body (w_resp w)
             = [Json {| Status := "success"; OrderID := id; TraceID := tid |}])
          \/
          (resp_Code (w_resp w) = StatusInternalServerError /\
           exists err, resp_Body (w_resp w) = [Text (err +:+ newline)])
      end
  end.
Proof.
  cbv zeta.
  generalize (eq_refl (handle tp lg ctx decoded rt g)).
  generalize (handle tp lg ctx decoded rt g) at 2 3 4 5 6 7 8 9 10 11 12.
  intros w. destruct decoded as [err|req]; run_all; intros Hw; subst w; cbn.
  all: split; [reflexivity|].
  all: first
    [ split; reflexivity
    | left; split; [reflexivity|]; split; [reflexivity|]; eexists _, _; reflexivity
    | right; split; [reflexivity|]; eexists; reflexivity ].
Qed.

(** The methods are entered along a prefix of the chain handler,
    processOrder, checkInventory, processPayment, reserveInventory: the
    payment is not processed unless the inventory check was entered and
    passed, and the inventory is not reserved unless the payment went
    through.  The whole chain is entered exactly when the answer is 201;
    with any other answer the inventory is not reserved. *)
Theorem methods_entered_along_chain
    (tp : TracerProvider) (lg : Logger) (ctx : Context)
    (decoded : string + CreateOrderRequest) (rt : Rt) (g : G) :
  let w := handle tp lg ctx decoded rt g in
  w_calls w `prefix_of` call_chain /\
  (resp_Code (w_resp w) = StatusCreated <-> w_calls w = call_chain) /\
  (resp_Code (w_resp w) <> StatusCreated -> "reserveInventory" ∉ w_calls w).
Proof.
  cbv zeta.
  generalize (eq_refl (handle tp lg ctx decoded rt g)).
  generalize (handle tp lg ctx decoded rt g) at 2 3 4 5 6.
  intros w. destruct decoded as [err|req]; run_all; intros Hw; subst w; cbn.
  all: split; [eexists; reflexivity|].
  all: split; [split; intros H; first [reflexivity | discriminate H]|].
  all: intros H; first
    [ contradiction H; reflexivity
    | apply (bool_decide_unpack _); vm_compute; exact I ].
Qed.

(** The measurements other than the outcome counters follow the path
    taken: the inventory counter is increased once for every request
    that passes validation, whether or not the order is created, and not
    for the others; the payment total is increased, by exactly the
    amount of the request, and one duration is recorded, exactly when
    the answer is 201. *)
Theorem measurements_follow_outcome
    (tp : TracerProvider) (lg : Logger) (ctx : Context)
    (decoded : string + CreateOrderRequest) (rt : Rt) (g : G) :
  let w := handle tp lg ctx decoded rt g in
  let created := resp_Code (w_resp w) =? StatusCreated in
  updates_of (InventoryRequests NewMetrics) (w_metrics w)
  = match decoded with
    | inr req =>
        match validateRequest req with
        | None => [{| m_instrument := InventoryRequests NewMetrics;
                      m_value := VInt 1; m_attrs := [] |}]
        | Some _ => []
        end
    | inl _ => []
    end /\
  updates_of (PaymentAmount NewMetrics) (w_metrics w)
  = match decoded with
    | inr req =>
        if created
        then [{| m_instrument := PaymentAmount NewMetrics;
                 m_value := VFloat (Amount req); m_attrs := [] |}]
        else []
    | inl _ => []
    end /\
  length (updates_of (OrderDuration NewMetrics) (w_metrics w))
  = (if created then 1 else 0)%nat.
Proof.
  cbv zeta.
  generalize (eq_refl (handle tp lg ctx decoded rt g)).
  generalize (handle tp lg ctx decoded rt g) at 2 3 4 5 6 7.
  intros w. destruct decoded as [err|req]; run_all; intros Hw; subst w; cbn.
  all: repeat split; reflexivity.
Qed.

(** [reserveInventory] never returns an error, so the third error of
    [processOrder] cannot occur: from any state, [processOrder] returns
    an order id of the form order-<n> with no error, or the empty id
    with one of the two errors "inventory check failed: insufficient
    inventory" and "payment failed: payment declined". *)
Theorem processOrder_returns_id_or_one_of_two_errors
    (s : OrderService) (ctx : Context) (req : CreateOrderRequest) (w : World) :
  fst (reserveInventory s ctx (ProductID req) (Quantity req) w) = None /\
  ((exists n : Z, fst (processOrder s ctx req w) = ("order-" +:+ pretty n, None)) \/
   fst (processOrder s ctx req w)
   = ("", Some ("inventory check failed: " +:+ "insufficient inventory")) \/
   fst (processOrder s ctx req w)
   = ("", Some ("payment failed: " +:+ "payment declined"))).
Proof.
  destruct w as [rt g n sp lgs ms rs cs]. split.
  - run_all. reflexivity.
  - run_all.
    all: first
      [ left; eexists; reflexivity
      | right; left; reflexivity
      | right; right; reflexivity ].
Qed.

End Executions.

End HandlerProperties.

(** ** Trace context along an execution (order_service.go, logger.go) *)

Module PropagationProperties.
Import Env Tracing Trace Logging Metrics Service ServiceProperties HandlerProperties.

(** The identifier generator hands out non-zero identifiers, as the
    generator of the SDK does. *)
Definition sound_ids (G : Type) `{!IDGenerator G} : Prop :=
  (forall g : G, fst (fst (NewIDs g)) <> 0 /\ snd (fst (NewIDs g)) <> 0) /\
  (forall tid (g : G), fst (NewSpanID tid g) <> 0).

(** The record carries the trace id [tid] as its last but one field,
    followed by a span id. *)
Definition stamped (tid : Z) (r : LogRecord) : Prop :=
  exists fields sid,
    rec_args r = fields ++ [slog_String "trace_id" (TraceID_String tid);
                            slog_String "span_id" (SpanID_String sid)].

Lemma IsValid_intro t s f :
  t <> 0 -> s <> 0 -> IsValid {| traceID := t; spanID := s; traceFlags := f |} = true.
Proof.
  intros Ht Hs. unfold IsValid. cbn [traceID spanID].
  rewrite (proj2 (Z.eqb_neq t 0) Ht), (proj2 (Z.eqb_neq s 0) Hs). reflexivity.
Qed.

Lemma IsValid_traceID sc : IsValid sc = true -> traceID sc <> 0.
Proof.
  unfold IsValid. destruct (Z.eqb_spec (traceID sc) 0); [discriminate|auto].
Qed.

(** Setting or clearing the sampled bit is read back by [IsSampled]. *)
Lemma IsSampled_set t s f (d : bool) :
  IsSampled {| traceID := t; spanID := s;
               traceFlags := if d then Z.lor f FlagsSampled
                             else Z.land f (Z.lnot FlagsSampled) |} = d.
Proof.
  unfold IsSampled, FlagsSampled. cbn [traceFlags]. destruct d.
  - apply Z.eqb_eq. rewrite Z.land_lor_distr_l. change (Z.land 1 1) with 1.
    apply Z.bits_inj'. intros n Hn. rewrite Z.lor_spec, Z.land_spec.
    destruct (Z.eq_dec n 0) as [->|Hne]; [rewrite Bool.orb_true_r; reflexivity|].
    rewrite (Z.bits_above_log2 1 n) by (cbn; lia).
    rewrite Bool.andb_false_r. reflexivity.
  - apply Z.eqb_neq. intros H.
    apply (f_equal (fun z => Z.testbit z 0)) in H.
    rewrite !Z.land_spec, Z.lnot_spec in H by lia. cbn in H.
    rewrite Bool.andb_false_r in H. discriminate H.
Qed.

Section Propagation.
Context {Rt G : Type} `{!Runtime Rt} `{!IDGenerator G}.

Lemma new_ids_valid_parent (psc : SpanContext) (g : G) t s g' :
  IsValid psc = true -> new_ids psc g = ((t, s), g') -> t = traceID psc.
Proof.
  intros Hv. unfold new_ids. rewrite Hv. destruct (NewSpanID _ _). congruence.
Qed.

Lemma new_ids_sound (psc : SpanContext) (g : G) t s g' :
  sound_ids G -> new_ids psc g = ((t, s), g') ->
  t <> 0 /\ s <> 0 /\ (IsValid psc = true -> t = traceID psc).
Proof.
  intros [Hnew Hspan] H. split; [|split].
  - unfold new_ids in H. destruct (IsValid psc) eqn:Hv.
    + destruct (NewSpanID _ _). injection H as <- _ _. apply IsValid_traceID, Hv.
    + pose proof (Hnew g) as [Ht _]. rewrite H in Ht. exact Ht.
  - unfold new_ids in H. destruct (IsValid psc) eqn:Hv.
    + pose proof (Hspan (traceID psc) g) as Hs. destruct (NewSpanID _ _).
      injection H as _ <- _. exact Hs.
    + pose proof (Hnew g) as [_ Hs]. rewrite H in Hs. exact Hs.
  - intros Hv. eapply new_ids_valid_parent; eauto.
Qed.

Lemma LogWithTrace_stamped tid (s : Span) lg level msg args sink :
  IsValid (span_sc s) = true -> traceID (span_sc s) = tid ->
  Forall (stamped tid) sink ->
  Forall (stamped tid) (LogWithTrace (Some s) lg level msg args sink).
Proof.
  intros Hv <- Hsink. unfold LogWithTrace, Logger_Log.
  change (SpanFromContext (Some s)) with s. rewrite Hv. destruct (Enabled lg level); [|exact Hsink].
  apply Forall_app. split; [exact Hsink|]. constructor; [|constructor].
  eexists _, _. reflexivity.
Qed.

#[local] Arguments InfoWithTrace : simpl never.
#[local] Arguments ErrorWithTrace : simpl never.
#[local] Arguments DebugWithTrace : simpl never.
#[local] Arguments WarnWithTrace : simpl never.
#[local] Arguments Sampler.decide : simpl never.
#[local] Arguments IsValid : simpl never.
#[local] Arguments IsSampled : simpl never.
#[local] Arguments pretty : simpl never.
#[local] Arguments float64_of_int64 : simpl never.
#[local] Arguments Milliseconds : simpl never.
#[local] Arguments TraceID_String : simpl never.
#[local] Arguments validateRequest : simpl never.
#[local] Arguments String.append : simpl never.
#[local] Arguments Z.add : simpl never.
#[local] Arguments Z.mul : simpl never.
#[local] Arguments Z.sub : simpl never.
#[local] Arguments Z.lor : simpl never.
#[local] Arguments Z.land : simpl never.

(** Symbolic execution that keeps the decisions of the sampler. *)
Ltac keep_step :=
  match goal with
  | |- context [new_ids ?a ?g] => destruct (new_ids a g) as [[? ?] ?] eqn:?
  | |- context [time_Now ?rt] => destruct (time_Now rt) as [? ?] eqn:?
  | |- context [rand_Intn ?n ?rt] => destruct (rand_Intn n rt) as [? ?] eqn:?
  | |- context [rand_Float64 ?rt] => destruct (rand_Float64 rt) as [? ?] eqn:?
  | |- context [validateRequest ?r] => destruct (validateRequest r) as [?|] eqn:?
  | |- context [PrimFloat.ltb ?x ?c] => destruct (PrimFloat.ltb x c) eqn:?
  | |- context [Z.eqb ?k 0] => destruct (Z.eqb k 0) eqn:?
  end.

Ltac run_keeping :=
  unfold handle, CreateOrderHandler, processOrder, checkInventory, processPayment,
    reserveInventory, http_Error, instrument_Add, span_SetStatus, span_RecordError,
    span_AddEvent, span_SetAttributes, span_End, span_call, log, enter,
    tracer_Start, Now, Sleep, Intn, Float64, Header_Set, WriteHeader, Write,
    respond, init, mbind, mret, M_bind, M_ret;
  cbn; repeat (keep_step; cbn).

(** What [new_ids_sound] says of every identifier drawn in the
    execution, the trace ids of children replaced by that of the root. *)
Ltac resolve_ids Hsound :=
  repeat match goal with
  | H : new_ids ?psc ?g = (?t, ?s, ?g') |- _ =>
      let Ht := fresh "Ht" in
      let Hs := fresh "Hs" in
      let Hp := fresh "Hp" in
      destruct (new_ids_sound psc g t s g' Hsound H) as (Ht & Hs & Hp); clear H;
      cbn [traceID] in Hp
  end;
  repeat match goal with
  | Hp : IsValid {| traceID := ?t; spanID := ?s; traceFlags := ?f |} = true -> _ = _,
    Ht : ?t <> 0, Hs : ?s <> 0 |- _ =>
      specialize (Hp (IsValid_intro t s f Ht Hs)); subst
  end.

(** One trace per execution.  When the generator hands out non-zero
    identifiers and the provider samples by trace-id ratio, all spans
    started in an execution carry the same trace id, that of the
    incoming context when it is valid, and the same sampling decision,
    which is also what their sampled flag says; and every log record
    written carries that trace id. *)
Theorem one_trace_per_execution
    (tp : TracerProvider) (rate : float) (lg : Logger) (ctx : Context)
    (decoded : string + CreateOrderRequest) (rt : Rt) (g : G) :
  sound_ids G ->
  tp_sampler tp = TraceIDRatioBased rate ->
  let w := handle tp lg ctx decoded rt g in
  exists tid,
    tid <> 0 /\
    (IsValid (span_sc (SpanFromContext ctx)) = true ->
     tid = traceID (span_sc (SpanFromContext ctx))) /\
    Forall (fun c =>
              traceID (span_sc (fst c)) = tid /\
              span_recording (fst c) = Sampler.decide rate tid /\
              IsSampled (span_sc (fst c)) = Sampler.decide rate tid)
           (w_spans w) /\
    Forall (stamped tid) (w_logs w).
Proof.
  intros Hsound Hsampler. cbv zeta.
  destruct tp as [endpoint batcher sampler]. cbn in Hsampler. subst sampler.
  generalize (eq_refl (handle {| tp_endpoint := endpoint; tp_batcher := batcher;
                                 tp_sampler := TraceIDRatioBased rate |}
                         lg ctx decoded rt g)).
  generalize (handle {| tp_endpoint := endpoint; tp_batcher := batcher;
                        tp_sampler := TraceIDRatioBased rate |}
                lg ctx decoded rt g) at 2 3 4.
  intros w. destruct decoded as [err|req]; run_keeping; intros Hw; subst w;
    resolve_ids Hsound.
  all: match goal with
       | Hp : IsValid _ = true -> ?t = _ |- _ =>
           exists t; split; [assumption|]; split; [exact Hp|]; split
       end.
  all: cbn [w_spans w_logs].
  all: try (repeat first
              [ apply Forall_nil_2
              | apply Forall_cons_2;
                [ cbn [fst span_sc span_recording traceID];
                  split; [reflexivity|]; split; [reflexivity|]; apply IsSampled_set | ] ]).
  all: unfold InfoWithTrace, ErrorWithTrace, DebugWithTrace, WarnWithTrace,
         ContextWithSpan.
  all: repeat first
         [ apply Forall_nil_2
         | apply LogWithTrace_stamped;
           [ apply IsValid_intro; assumption | reflexivity | ] ].
Qed.

(** The spans that are exported: those ended while recording, by span
    object, in the order in which they end. *)
Definition exported (l : list (Span * SpanOp)) : list nat :=
  omap (fun c => match snd c with
                 | OpEnd => if span_recording (fst c) then Some (span_obj (fst c)) else None
                 | _ => None
                 end) l.

(** What the success test expects holds of every execution that answers
    201 under a provider with the parent-based default sampler, as the
    tests build it, from a request without an incoming span: exactly the
    four spans CreateOrder, CheckInventory, ProcessPayment and
    ReserveInventory are started, all of them record, all four are
    exported, the three children before the root, and the root span is
    given the attributes of the request. *)
Theorem created_order_exports_four_spans
    (tp : TracerProvider) (lg : Logger) (req : CreateOrderRequest) (rt : Rt) (g : G) :
  tp_sampler tp = ParentBasedAlwaysSample ->
  let w := handle tp lg context_Background (inr req) rt g in
  resp_Code (w_resp w) = StatusCreated ->
  started_names (w_spans w)
  = ["CreateOrder"; "CheckInventory"; "ProcessPayment"; "ReserveInventory"] /\
  Forall (fun c => span_recording (fst c) = true) (w_spans w) /\
  exported (w_spans w) = [2; 3; 4; 1]%nat /\
  exists root,
    span_obj root = 1%nat /\
    (root, OpStart "CreateOrder" SpanKindServer) ∈ w_spans w /\
    (root, OpSetAttributes
             [attribute_String "user.id" (UserID req);
              attribute_String "product.id" (ProductID req);
              attribute_Int "order.quantity" (Quantity req);
              attribute_Float64 "order.amount" (Amount req)]) ∈ w_spans w.
Proof.
  intros Hsampler. cbv zeta.
  destruct tp as [endpoint batcher sampler]. cbn in Hsampler. subst sampler.
  generalize (eq_refl (handle {| tp_endpoint := endpoint; tp_batcher := batcher;
                                 tp_sampler := ParentBasedAlwaysSample |}
                         lg context_Background (inr req) rt g)).
  generalize (handle {| tp_endpoint := endpoint; tp_batcher := batcher;
                        tp_sampler := ParentBasedAlwaysSample |}
                lg context_Background (inr req) rt g) at 2 3 4 5 6 7 8.
  intros w. run_keeping; intros Hw; subst w; cbn; intros Hcode;
    try discriminate Hcode.
  all: repeat match goal with
       | |- context [IsValid ?sc] =>
           let E := fresh "E" in destruct (IsValid sc) eqn:E; try discriminate E
       end.
  all: split; [reflexivity|].
  all: split; [repeat first [apply Forall_nil_2 | apply Forall_cons_2; [reflexivity|]]|].
  all: split; [reflexivity|].
  all: eexists; split; [|split].
  all: try (apply list_elem_of_here).
  all: try reflexivity.
  all: apply list_elem_of_further, list_elem_of_here.
Qed.

#[local] Arguments Sampler.ShouldSample : simpl never.

(** The trace id returned to the client is that of the caller: when the
    incoming context carries a valid span context and the answer is
    201, the [trace_id] of the JSON body is the hexadecimal form of the
    incoming trace id, whatever the sampler decides. *)
Theorem response_returns_incoming_trace_id
    (tp : TracerProvider) (lg : Logger) (parent : Span)
    (req : CreateOrderRequest) (rt : Rt) (g : G) :
  IsValid (span_sc parent) = true ->
  let w := handle tp lg (Some parent) (inr req) rt g in
  resp_Code (w_resp w) = StatusCreated ->
  exists id,
    resp_Body (w_resp w)
    = [Json {| Status := "success"; OrderID := id;
               TraceID := TraceID_String (traceID (span_sc parent)) |}].
Proof.
  intros Hvalid. cbv zeta.
  generalize (eq_refl (handle tp lg (Some parent) (inr req) rt g)).
  generalize (handle tp lg (Some parent) (inr req) rt g) at 2 3 4.
  intros w. run_keeping; intros Hw; subst w; cbn; intros Hcode;
    try discriminate Hcode;
    match goal with
    | H : new_ids (span_sc parent) g = _ |- _ =>
        rewrite (new_ids_valid_parent _ _ _ _ _ Hvalid H)
    end;
    eexists; reflexivity.
Qed.

End Propagation.

End PropagationProperties.

(** ** Concrete runs for the properties above *)

Module MoreRuns.
Import Env Tracing Trace Logging Metrics Service Script ServiceProperties
  HandlerProperties PropagationProperties Runs.

(** A generator that counts up from a natural number: its identifiers
    are never zero. *)
#[global] Instance natural_ids : IDGenerator nat := {|
  NewIDs g := ((Z.of_nat g + 1, Z.of_nat g + 2), (g + 2)%nat);
  NewSpanID tid g := (Z.of_nat g + 1, S g)
|}.

Lemma natural_ids_sound : sound_ids nat.
Proof. split; [intros g; cbn; lia | intros tid g; cbn; lia]. Defined.

(** The provider of the tests: no sampler is given, so the SDK's default
    applies. *)
Definition test_provider : TracerProvider :=
  {| tp_endpoint := "";
     tp_batcher := {| MaxExportBatchSize := 512; BatchTimeout := 5 * time_Second;
                      MaxQueueSize := 2048 |};
     tp_sampler := ParentBasedAlwaysSample |}.

(** An incoming span context, valid and not sampled. *)
Definition caller : Span :=
  {| span_obj := 0;
     span_sc := {| traceID := 2 ^ 64 - 1; spanID := 7; traceFlags := 0 |};
     span_recording := false |}.

Lemma one_trace_per_execution_witness :
  let w := handle (provider rate_production) info (Some caller) (inr valid_request)
             calm 100%nat in
  exists tid,
    tid <> 0 /\
    (IsValid (span_sc (SpanFromContext (Some caller))) = true ->
     tid = traceID (span_sc (SpanFromContext (Some caller)))) /\
    Forall (fun c =>
              traceID (span_sc (fst c)) = tid /\
              span_recording (fst c) = Sampler.decide rate_production tid /\
              IsSampled (span_sc (fst c)) = Sampler.decide rate_production tid)
           (w_spans w) /\
    Forall (stamped tid) (w_logs w).
Proof.
  apply (one_trace_per_execution (provider rate_production) rate_production info
           (Some caller) (inr valid_request) calm 100%nat natural_ids_sound).
  reflexivity.
Defined.

Lemma created_order_exports_four_spans_witness :
  let w := handle test_provider info context_Background (inr valid_request) calm 100 in
  started_names (w_spans w)
  = ["CreateOrder"; "CheckInventory"; "ProcessPayment"; "ReserveInventory"] /\
  Forall (fun c => span_recording (fst c) = true) (w_spans w) /\
  exported (w_spans w) = [2; 3; 4; 1]%nat /\
  exists root,
    span_obj root = 1%nat /\
    (root, OpStart "CreateOrder" SpanKindServer) ∈ w_spans w /\
    (root, OpSetAttributes
             [attribute_String "user.id" (UserID valid_request);
              attribute_String "product.id" (ProductID valid_request);
              attribute_Int "order.quantity" (Quantity valid_request);
              attribute_Float64 "order.amount" (Amount valid_request)]) ∈ w_spans w.
Proof.
  apply (created_order_exports_four_spans test_provider info valid_request calm 100);
    reflexivity.
Defined.

Lemma response_returns_incoming_trace_id_witness :
  let w := handle (provider 1) info (Some caller) (inr valid_request) calm 100 in
  exists id,
    resp_Body (w_resp w)
    = [Json {| Status := "success"; OrderID := id;
               TraceID := TraceID_String (traceID (span_sc caller)) |}].
Proof.
  apply (response_returns_incoming_trace_id (provider 1) info caller valid_request
           calm 100); reflexivity.
Defined.

Example caller_trace_id_in_response :
  resp_Body (w_resp (handle (provider 1) info (Some caller) (inr valid_request) calm 100))
  = [Json {| Status := "success"; OrderID := "order-186001000";
             TraceID := "0000000000000000ffffffffffffffff" |}].
Proof. reflexivity. Qed.

End MoreRuns.
